(** * Solar plant efficiency analyzer: the report pipeline of [app.py]

    The script reads two data frames (irradiance, actual generation), merges
    them on the [Month] column, derives the expected generation and the monthly
    efficiency of every merged row, sums the totals, draws two figures and
    writes a paginated PDF report.

    Numbers are IEEE binary64 values, as Python's [float] and numpy's
    [float64] are: the kernel's primitive floats, with the operations in the
    order the script writes them.  What the script calls from pandas,
    matplotlib and reportlab is modelled by what those calls do to the data
    that the script hands them (pandas as of its 2.2 line). *)

From Stdlib Require Import Floats ZArith List String Ascii Bool Arith Lia.
From Stdlib Require Uint63.
Import ListNotations.

Set Warnings "-inexact-float".
#[local] Set Warnings "-notation-overridden".

Local Open Scope string_scope.
Local Open Scope list_scope.

(** ** Python values the script computes with *)

(** [float(n)] for a Python [int]: the conversion that [float * int] applies.
    The sidebar's integers are at most 2^53 - 1 in absolute value, where the
    conversion is exact. *)
Definition float_of_int (n : Z) : float :=
  if (n <? 0)%Z then PrimFloat.opp (PrimFloat.of_uint63 (Uint63.of_Z (- n)))
  else PrimFloat.of_uint63 (Uint63.of_Z n).

(** The exceptions that the script meets on the files modelled here, which
    have at least one line, text under [Month] and numbers in the other
    cells; all of them end in the handler of line 164.  Other files make
    pandas and Python raise exceptions that this type does not have: a
    [ValueError] where [pd.merge] is given month names in one file and month
    numbers in the other, a [TypeError] where a cell is not a number or a
    label is missing, a [ZeroDivisionError] at line 51 on two files of a
    header and no line, and what [pd.read_csv] raises on a file it cannot
    parse. *)
Inductive exn :=
| KeyError (key : string)           (* df[key] on a frame without that column *)
| MergeError                        (* pd.merge: the suffixes make two columns one *)
| FileNotFoundError (path : string) (* drawImage on a path nobody wrote *).

Inductive result (A : Type) :=
| Ok (a : A)
| Raise (e : exn).
Arguments Ok {A} a.
Arguments Raise {A} e.

Definition bind {A B} (m : result A) (k : A -> result B) : result B :=
  match m with
  | Ok a => k a
  | Raise e => Raise e
  end.

Declare Scope result_scope.
Delimit Scope result_scope with result.
Notation "x <- m ;; k" := (bind m (fun x => k))
  (at level 61, m at next level, right associativity) : result_scope.

(** ** The sidebar (lines 13-29) *)

Module Sidebar.

Record inputs := mk {
  plant_name : string;
  project_code : string;
  address : string;
  panel_power : Z;      (* number_input, min_value=1 *)
  efficiency : float;   (* number_input, 0.0 .. 100.0 *)
  num_panels : Z;       (* number_input, min_value=1 *)
  length : float;       (* number_input, min_value=0.1 *)
  width : float         (* number_input, min_value=0.1 *)
}.

End Sidebar.

(** Line 29. *)
Definition panel_area (s : Sidebar.inputs) : float :=
  (Sidebar.length s * Sidebar.width s)%float.

(** ** Data frames

    A frame as [pd.read_csv] returns it: the header in file order, its names
    distinct, and one record per line.  The cell under [Month] is the
    period's label, every other cell is a float64: a blank cell is [nan],
    and a column of integers stands for its values as float64, which is what
    line 46 and line 47 turn it into ([below_2_53] says when its sum is
    the same).  [cells] lists the cells of the columns other than [Month],
    in header order.

    The label is the text of the cell, which is what pandas keeps of a
    column of month names.  A [Month] column of numbers is read as numbers
    (so that [01] and [1] are one period), a blank label as [nan], and a
    file of a header and no line has columns that pandas types as
    [object]: [text_periods], below, holds of the frames that are what
    this model takes them for. *)

Record Row := mkRow {
  Month : string;
  cells : list float
}.

Record DataFrame := mkDataFrame {
  columns : list string;
  rows : list Row
}.

Definition mem (c : string) (l : list string) : bool :=
  existsb (String.eqb c) l.

Definition is_data (c : string) : bool := negb (c =? "Month").

Definition data_columns (df : DataFrame) : list string :=
  filter is_data (columns df).

Fixpoint index_of (name : string) (l : list string) : nat :=
  match l with
  | [] => 0
  | c :: l' => if c =? name then 0 else S (index_of name l')
  end.

(** [row[name]] for a record [r] of [df]. *)
Definition loc (df : DataFrame) (name : string) (r : Row) : float :=
  nth (index_of name (data_columns df)) (cells r) nan.

(** [df[name]] read, for a column of numbers: the column's values in row
    order, or [KeyError].  The labels under [Month] are read with
    [Month]. *)
Definition getitem (df : DataFrame) (name : string) : result (list float) :=
  if mem name (data_columns df)
  then Ok (map (loc df name) (rows df))
  else Raise (KeyError name).

(** [df[name] = vals]: the column is replaced where it stands, or added
    after the last one. *)
Definition setitem (df : DataFrame) (name : string) (vals : list float)
  : DataFrame :=
  let dc := data_columns df in
  if mem name dc then
    mkDataFrame (columns df)
      (map (fun rv : Row * float =>
              mkRow (Month (fst rv))
                (map (fun c => if c =? name then snd rv else loc df c (fst rv)) dc))
         (combine (rows df) vals))
  else
    mkDataFrame (columns df ++ [name])
      (map (fun rv : Row * float =>
              mkRow (Month (fst rv))
                (map (fun c => loc df c (fst rv)) dc ++ [snd rv]))
         (combine (rows df) vals)).

(** *** [pd.merge(left, right, on="Month")]

    An inner join: for every record of [left], in order, one merged record
    per record of [right] with the same label, in [right]'s order.  A column
    that both frames have (other than the key) is kept twice, as [c_x] and
    [c_y]; the merge is refused when such a suffix makes a label that the
    same frame already has. *)

Definition lsuffix (other : list string) (c : string) : string :=
  if c =? "Month" then c else if mem c other then c ++ "_x" else c.

Definition rsuffix (other : list string) (c : string) : string :=
  if c =? "Month" then c else if mem c other then c ++ "_y" else c.

Fixpoint new_duplicates (ren : string -> string) (seen l : list string) : bool :=
  match l with
  | [] => false
  | c :: l' =>
      (mem (ren c) (map ren seen) && negb (mem c seen))
      || new_duplicates ren (c :: seen) l'
  end.

Definition join (left right : DataFrame) (l r : Row) : Row :=
  mkRow (Month l)
    (map (fun c => loc left c l) (data_columns left)
     ++ map (fun c => loc right c r) (data_columns right)).

Definition matches (l : Row) (right : DataFrame) : list Row :=
  filter (fun r => Month r =? Month l) (rows right).

Definition merge (left right : DataFrame) : result DataFrame :=
  let lc := data_columns left in
  let rc := data_columns right in
  if new_duplicates (lsuffix rc) [] (columns left)
     || new_duplicates (rsuffix lc) [] (columns right)
  then Raise MergeError
  else Ok (mkDataFrame
             (map (lsuffix rc) (columns left) ++ map (rsuffix lc) rc)
             (flat_map (fun l => map (join left right l) (matches l right))
                (rows left))).

(** *** [Series.sum()]

    pandas skips missing values ([skipna=True]): every [nan] is replaced by
    0, and numpy's [add.reduce] adds the column up.  numpy starts the
    reduction at 0 and adds to it the pairwise sum of the column
    ([DOUBLE_pairwise_sum]): fewer than eight values are added in row order;
    up to 128 values are added into eight running sums, the value at index
    [i] going to sum [i mod 8], which are then added two by two, and the
    values left after the last full group of eight are added in row order;
    a longer column is cut in two at a multiple of eight near its middle.

    [fsum] is the sum in row order, which the pairwise sum is compared
    with. *)

Definition fsum (l : list float) : float :=
  fold_left PrimFloat.add l 0%float.

Definition fillna0 (x : float) : float :=
  if PrimFloat.is_nan x then 0%float else x.

Definition zip_with {A B C} (f : A -> B -> C) (a : list A) (b : list B)
  : list C :=
  map (fun p => f (fst p) (snd p)) (combine a b).

(** [k] rounds of the unrolled loop: the eight running sums [r] take the
    next eight values of [l] each round. *)
Fixpoint unrolled (k : nat) (r l : list float) : list float * list float :=
  match k with
  | O => (r, l)
  | S k' => unrolled k' (zip_with PrimFloat.add r (firstn 8 l)) (skipn 8 l)
  end.

(** The branch for 8 to 128 values. *)
Definition block_sum (l : list float) : float :=
  let (r, rest) :=
    unrolled (Nat.div (List.length l) 8 - 1) (firstn 8 l) (skipn 8 l) in
  match r with
  | [r0; r1; r2; r3; r4; r5; r6; r7] =>
      fold_left PrimFloat.add rest
        (((r0 + r1) + (r2 + r3)) + ((r4 + r5) + (r6 + r7)))%float
  | _ => fold_left PrimFloat.add l (-0)%float
  end.

(** The recursion halves the column, so that [fuel] the length of the
    column is never used up. *)
Fixpoint pairwise_sum (fuel : nat) (l : list float) : float :=
  let n := List.length l in
  if (n <? 8)%nat then fold_left PrimFloat.add l (-0)%float
  else if (n <=? 128)%nat then block_sum l
  else match fuel with
       | O => block_sum l
       | S fuel' =>
           let n2 := (Nat.div n 2 - Nat.modulo (Nat.div n 2) 8)%nat in
           (pairwise_sum fuel' (firstn n2 l)
            + pairwise_sum fuel' (skipn n2 l))%float
       end.

Definition np_sum (l : list float) : float :=
  (0 + pairwise_sum (List.length l) l)%float.

Definition Series_sum (l : list float) : float :=
  np_sum (map fillna0 l).

(** A column of integers is read as [int64], and is added up as integers.
    Its sum is the float64 sum of its values while their magnitudes add up
    to less than 2^53: every partial sum, in whatever order, is then an
    integer that float64 holds exactly. *)
Definition below_2_53 (l : list float) : bool :=
  (fsum (map PrimFloat.abs (map fillna0 l)) <? 9007199254740992)%float.

(** A zero of either sign. *)
Definition is_zero (x : float) : Prop := exists sg, Prim2SF x = S754_zero sg.

(** Two running sums that are the same, or a negative and a positive
    zero. *)
Definition same_or_zeros (x y : float) : Prop :=
  x = y \/ (Prim2SF x = S754_zero true /\ Prim2SF y = S754_zero false).

(** ** The efficiency computation (lines 45-51) *)

Record Computed := mkComputed {
  df : DataFrame;
  total_expected : float;
  total_actual : float;
  overall_eff : float
}.

(** The factor of line 46, [(efficiency / 100) * num_panels * panel_area]. *)
Definition expected_factor (s : Sidebar.inputs) : float :=
  (Sidebar.efficiency s / 100 * float_of_int (Sidebar.num_panels s)
   * panel_area s)%float.

Definition compute (s : Sidebar.inputs) (irradiance_df generation_df : DataFrame)
  : result Computed :=
  (df0 <- merge irradiance_df generation_df ;;
   irr <- getitem df0 "Irradiance" ;;
   let df1 :=
     setitem df0 "ExpectedGeneration"
       (map (fun x => expected_factor s * x)%float irr) in
   act <- getitem df1 "ActualGeneration" ;;
   expd <- getitem df1 "ExpectedGeneration" ;;
   let df2 :=
     setitem df1 "MonthlyEfficiency"
       (zip_with (fun a e => a / e * 100)%float act expd) in
   expd' <- getitem df2 "ExpectedGeneration" ;;
   let total_expected := Series_sum expd' in
   act' <- getitem df2 "ActualGeneration" ;;
   let total_actual := Series_sum act' in
   Ok (mkComputed df2 total_expected total_actual
         (total_actual / total_expected * 100)%float))%result.

(** ** Formatted strings

    An f-string is kept as its pieces: the literal text and, for every
    replacement field, the value and its format specification. *)

Inductive value :=
| VStr (s : string)
| VInt (n : Z)
| VFloat (x : float).

Inductive piece :=
| Lit (s : string)
| Field (v : value) (spec : string).

Definition fstring := list piece.

(** ** The two figures (lines 53-88) *)

Inductive color :=
| Named (name : string)
| RdYlGn_r (x : float).      (* plt.cm.RdYlGn_r(x) *)

(** [np.clip(x, lo, hi)]: [minimum(maximum(x, lo), hi)], where [maximum]
    keeps [x] when [x >= lo] and [minimum] keeps it when it is [<= hi]; a
    [nan] passes through, and so does [-0.0] between the bounds 0 and 1. *)
Definition np_clip (x lo hi : float) : float :=
  if PrimFloat.is_nan x then x
  else
    let t := if (lo <=? x)%float then x else lo in
    if (t <=? hi)%float then t else hi.

Inductive artist :=
| ax_bar (x : list string) (height : list float) (c : color)
         (label : option string) (alpha : float)
| ax_text (x : string) (y : float) (s : fstring) (c : string) (ha : string)
| ax_plot (x : list string) (y : list float) (marker c label : string)
| ax_set_ylabel (s : string)
| ax_set_title (s : string)
| ax_grid
| ax_legend (loc_ : option string).

(** A figure is the sequence of calls made on its axes. *)
Definition Figure := list artist.

(** Line 62. *)
Definition bar_color (MonthlyEfficiency : float) : color :=
  RdYlGn_r (np_clip (MonthlyEfficiency / 100)%float 0%float 1%float).

Definition actual_bar (d : DataFrame) (row : Row) : artist :=
  ax_bar [Month row] [loc d "ActualGeneration" row]
    (bar_color (loc d "MonthlyEfficiency" row)) None 0.8%float.

Definition value_labels (d : DataFrame) (row : Row) : list artist :=
  [ ax_text (Month row) (loc d "ExpectedGeneration" row + 2)%float
      [Field (VFloat (loc d "ExpectedGeneration" row)) ".2f"] "black" "center";
    ax_text (Month row) (loc d "ActualGeneration" row + 2)%float
      [Field (VFloat (loc d "ActualGeneration" row)) ".2f"] "red" "center" ].

(** Lines 55-75. *)
Definition generation_figure (d : DataFrame) : Figure :=
  [ ax_bar (map Month (rows d)) (map (loc d "ExpectedGeneration") (rows d))
      (Named "darkblue") (Some "Expected") 0.6%float ]
  ++ map (actual_bar d) (rows d)
  ++ [ ax_set_ylabel "Energy (kWh)";
       ax_set_title "Expected vs Actual Monthly Generation";
       ax_grid ]
  ++ flat_map (value_labels d) (rows d)
  ++ [ ax_legend (Some "upper left") ].

(** Lines 81-86. *)
Definition efficiency_figure (d : DataFrame) : Figure :=
  [ ax_plot (map Month (rows d)) (map (loc d "MonthlyEfficiency") (rows d))
      "o" "purple" "Efficiency (%)";
    ax_set_ylabel "Efficiency (%)";
    ax_set_title "Monthly Efficiency";
    ax_grid;
    ax_legend None ].

(** ** The PDF canvas (lines 90-152) *)

Inductive canvas_op :=
| setFont (name : string) (size : Z)
| drawString (x : Z) (y : float) (s : fstring)
| line (x1 : Z) (y1 : float) (x2 : Z) (y2 : float)
| drawImage (img : Figure) (x : Z) (y : float) (width height : Z).

Definition page := list canvas_op.

(** reportlab's units: [inch = 72.0], [cm = inch / 2.54], [mm = cm * 0.1],
    and [A4 = (210*mm, 297*mm)]. *)
Definition mm : float := (72 / 2.54 * 0.1)%float.
Definition A4 : float * float := (210 * mm, 297 * mm)%float.
Definition height : float := snd A4.

(** The files under [/tmp]: the last figure saved under each path. *)
Definition filesystem := list (string * Figure).

Fixpoint read_file (fs : filesystem) (path : string) : option Figure :=
  match fs with
  | [] => None
  | (p, f) :: fs' => if p =? path then Some f else read_file fs' path
  end.

(** What the report block changes as it runs: the files, the canvas (the
    pages shown so far and the page being drawn) and the cursor [y]. *)
Record World := mkWorld {
  tmp : filesystem;
  shown : list page;
  code : page;
  y : float
}.

Definition script (A : Type) := World -> result (A * World).

Definition ret {A} (a : A) : script A := fun w => Ok (a, w).

Definition and_then {A B} (m : script A) (k : A -> script B) : script B :=
  fun w => match m w with
           | Ok (a, w') => k a w'
           | Raise e => Raise e
           end.

Declare Scope script_scope.
Delimit Scope script_scope with script.
Notation "m ;; k" := (and_then m (fun _ => k))
  (at level 61, right associativity) : script_scope.

Definition emit (op : canvas_op) : script unit :=
  fun w => Ok (tt, mkWorld (tmp w) (shown w) (code w ++ [op]) (y w)).

(** [c.setFont(name, size)]. *)
Definition c_setFont (name : string) (size : Z) : script unit :=
  emit (setFont name size).

(** [c.drawString(x, y, s)] at the cursor. *)
Definition c_drawString (x : Z) (s : fstring) : script unit :=
  fun w => emit (drawString x (y w) s) w.

(** [c.line(x1, y, x2, y)] at the cursor. *)
Definition c_line (x1 x2 : Z) : script unit :=
  fun w => emit (line x1 (y w) x2 (y w)) w.

(** [y -= k]. *)
Definition y_minus (k : float) : script unit :=
  fun w => Ok (tt, mkWorld (tmp w) (shown w) (code w) (y w - k)%float).

(** [y = v]. *)
Definition y_set (v : float) : script unit :=
  fun w => Ok (tt, mkWorld (tmp w) (shown w) (code w) v).

(** [c.showPage()]: the page being drawn is closed and an empty one begun. *)
Definition c_showPage : script unit :=
  fun w => Ok (tt, mkWorld (tmp w) (shown w ++ [code w]) [] (y w)).

(** [fig.savefig(path)]. *)
Definition savefig (fig : Figure) (path : string) : script unit :=
  fun w => Ok (tt, mkWorld ((path, fig) :: tmp w) (shown w) (code w) (y w)).

(** [c.drawImage(path, x, y - dy, width, height)]: the file is read when
    the call is made. *)
Definition c_drawImage (path : string) (x : Z) (dy : float) (width height : Z)
  : script unit :=
  fun w => match read_file (tmp w) path with
           | Some img => emit (drawImage img x (y w - dy)%float width height) w
           | None => Raise (FileNotFoundError path)
           end.

(** [c.save()]: a page with something on it is shown first. *)
Definition c_save : script (list page) :=
  fun w => match code w with
           | [] => Ok (shown w, w)
           | _ :: _ => Ok (shown w ++ [code w],
                           mkWorld (tmp w) (shown w ++ [code w]) [] (y w))
           end.

Fixpoint for_each {A} (l : list A) (body : A -> script unit) : script unit :=
  match l with
  | [] => ret tt
  | a :: l' => and_then (body a) (fun _ => for_each l' body)
  end.

Local Open Scope script_scope.

(** Lines 95-131: title, project, panel configuration, totals and the
    table's heading. *)
Definition report_head (s : Sidebar.inputs) (r : Computed) : script unit :=
  y_set (height - 40)%float ;;
  c_setFont "Helvetica-Bold" 14 ;;
  c_drawString 50 [Lit "Solar Efficiency Report"] ;;
  y_minus 30 ;;
  c_setFont "Helvetica" 11 ;;
  c_drawString 50 [Lit "Plant Name: "; Field (VStr (Sidebar.plant_name s)) ""] ;;
  y_minus 15 ;;
  c_drawString 50 [Lit "Project Code: "; Field (VStr (Sidebar.project_code s)) ""] ;;
  y_minus 15 ;;
  c_drawString 50 [Lit "Address: "; Field (VStr (Sidebar.address s)) ""] ;;
  y_minus 30 ;;
  c_drawString 50 [Lit "Panel Power: "; Field (VInt (Sidebar.panel_power s)) ""; Lit " W"] ;;
  y_minus 15 ;;
  c_drawString 50 [Lit "Panel Efficiency: "; Field (VFloat (Sidebar.efficiency s)) ""; Lit "%"] ;;
  y_minus 15 ;;
  c_drawString 50 [Lit "Number of Panels: "; Field (VInt (Sidebar.num_panels s)) ""] ;;
  y_minus 15 ;;
  c_drawString 50 [Lit "Panel Area: "; Field (VFloat (panel_area s)) ".2f"; Lit " m²"] ;;
  y_minus 30 ;;
  c_drawString 50 [Lit "Total Expected Generation: "; Field (VFloat (total_expected r)) ".2f"; Lit " kWh"] ;;
  y_minus 15 ;;
  c_drawString 50 [Lit "Total Actual Generation: "; Field (VFloat (total_actual r)) ".2f"; Lit " kWh"] ;;
  y_minus 15 ;;
  c_drawString 50 [Lit "Overall Efficiency: "; Field (VFloat (overall_eff r)) ".2f"; Lit "%"] ;;
  y_minus 30 ;;
  c_setFont "Helvetica-Bold" 12 ;;
  c_drawString 50 [Lit "Monthly Details:"] ;;
  y_minus 20 ;;
  c_setFont "Helvetica" 10 ;;
  c_drawString 50 [Lit "Month | Irradiance | Expected | Actual | Efficiency"] ;;
  y_minus 15 ;;
  c_line 50 550 ;;
  y_minus 10.

(** Line 134. *)
Definition table_line (d : DataFrame) (row : Row) : fstring :=
  [ Field (VStr (Month row)) "5"; Lit " | ";
    Field (VFloat (loc d "Irradiance" row)) "10.1f"; Lit " | ";
    Field (VFloat (loc d "ExpectedGeneration" row)) "8.1f"; Lit " | ";
    Field (VFloat (loc d "ActualGeneration" row)) "8.1f"; Lit " | ";
    Field (VFloat (loc d "MonthlyEfficiency" row)) "8.1f"; Lit "%" ].

(** Lines 137-139. *)
Definition page_break : script unit :=
  fun w => if (y w <? 100)%float
           then (c_showPage ;; y_set (height - 50)%float) w
           else ret tt w.

(** Lines 133-139, the body of the loop. *)
Definition table_row (d : DataFrame) (row : Row) : script unit :=
  c_drawString 50 (table_line d row) ;;
  y_minus 15 ;;
  page_break.

Definition img_path : string := "/tmp/solar_generation_chart.png".
Definition img_path_eff : string := "/tmp/efficiency_chart.png".

(** Lines 141-150. *)
Definition report_images (fig fig_eff : Figure) : script unit :=
  savefig fig img_path ;;
  c_drawImage img_path 50 400 500 300 ;;
  y_minus 400 ;;
  savefig fig_eff img_path_eff ;;
  c_drawImage img_path_eff 50 400 500 300 ;;
  y_minus 400.

(** Lines 91-153. *)
Definition build_pdf (s : Sidebar.inputs) (r : Computed) (fig fig_eff : Figure)
  : script (list page) :=
  report_head s r ;;
  for_each (rows (df r)) (table_row (df r)) ;;
  report_images fig fig_eff ;;
  c_save.

Local Close Scope script_scope.

(** ** The button (lines 36-167), with both files uploaded *)

Inductive outcome :=
| MonthColumnMissing                   (* line 43 *)
| ErrorProcessingFiles (e : exn)       (* line 165 *)
| ReportGenerated (fig fig_eff : Figure) (pdf_data : list page).

(** The canvas of line 92 is new; the files are those an earlier run, or
    anybody else, left under [/tmp]. *)
Definition fresh_canvas (fs : filesystem) : World :=
  mkWorld fs [] [] 0%float.

Definition generate_report (fs : filesystem) (s : Sidebar.inputs)
  (irradiance_df generation_df : DataFrame) : outcome :=
  if negb (mem "Month" (columns irradiance_df))
     || negb (mem "Month" (columns generation_df))
  then MonthColumnMissing
  else
    match compute s irradiance_df generation_df with
    | Raise e => ErrorProcessingFiles e
    | Ok r =>
        let fig := generation_figure (df r) in
        let fig_eff := efficiency_figure (df r) in
        match build_pdf s r fig fig_eff (fresh_canvas fs) with
        | Raise e => ErrorProcessingFiles e
        | Ok (pdf_data, _) => ReportGenerated fig fig_eff pdf_data
        end
    end.

(** ** What the statements below read off a run *)

(** The record that [df[name] = map g rows] makes of record [r]. *)
Definition put (d : DataFrame) (name : string) (g : Row -> float) (r : Row)
  : Row :=
  mkRow (Month r)
    (if mem name (data_columns d)
     then map (fun c => if c =? name then g r else loc d c r) (data_columns d)
     else map (fun c => loc d c r) (data_columns d) ++ [g r]).

(** Lines 46 and 47 as assignments on a frame: the new cell of a record. *)
Definition expected_of (s : Sidebar.inputs) (d : DataFrame) (r : Row) : float :=
  (expected_factor s * loc d "Irradiance" r)%float.

Definition with_expected (s : Sidebar.inputs) (d : DataFrame) : DataFrame :=
  setitem d "ExpectedGeneration" (map (expected_of s d) (rows d)).

Definition efficiency_of (d : DataFrame) (r : Row) : float :=
  (loc d "ActualGeneration" r / loc d "ExpectedGeneration" r * 100)%float.

Definition with_efficiency (d : DataFrame) : DataFrame :=
  setitem d "MonthlyEfficiency" (map (efficiency_of d) (rows d)).

(** The record that lines 46-47 make of a record of the merged frame. *)
Definition derived_row (s : Sidebar.inputs) (d0 : DataFrame) (r : Row) : Row :=
  put (with_expected s d0) "MonthlyEfficiency"
    (efficiency_of (with_expected s d0))
    (put d0 "ExpectedGeneration" (expected_of s d0) r).

(** The result of lines 46-51 on a merged frame that has both columns. *)
Definition computed_from (s : Sidebar.inputs) (d0 : DataFrame) : Computed :=
  let d2 := with_efficiency (with_expected s d0) in
  let te := Series_sum (map (loc d2 "ExpectedGeneration") (rows d2)) in
  let ta := Series_sum (map (loc d2 "ActualGeneration") (rows d2)) in
  mkComputed d2 te ta (ta / te * 100)%float.

(** The strings drawn on a page, in drawing order. *)
Definition texts (p : page) : list fstring :=
  flat_map (fun op => match op with
                      | drawString _ _ s => [s]
                      | _ => []
                      end) p.

(** The lines of the table are the strings that open with the field of the
    period, [{row['Month']:5}]; the heights they are drawn at, and their
    periods. *)
Definition table_heights (p : page) : list float :=
  flat_map (fun op => match op with
                      | drawString _ y0 (Field (VStr _) "5" :: _) => [y0]
                      | _ => []
                      end) p.

Definition table_periods (p : page) : list string :=
  flat_map (fun op => match op with
                      | drawString _ _ (Field (VStr m) "5" :: _) => [m]
                      | _ => []
                      end) p.

(** The bars drawn without a legend label, those of line 63: period,
    height, colour. *)
Definition actual_bars (fig : Figure) : list (string * float * color) :=
  flat_map (fun a => match a with
                     | ax_bar x h c None _ =>
                         map (fun p => (fst p, snd p, c)) (combine x h)
                     | _ => []
                     end) fig.

(** The labels along the x axis of a call that takes whole columns
    (lines 58 and 82). *)
Definition series_labels (fig : Figure) : list string :=
  flat_map (fun a => match a with
                     | ax_bar x _ _ (Some _) _ => x
                     | ax_plot x _ _ _ _ => x
                     | _ => []
                     end) fig.

(** The strings of lines 97-128. *)
Definition head_texts (s : Sidebar.inputs) (r : Computed) : list fstring :=
  [ [Lit "Solar Efficiency Report"];
    [Lit "Plant Name: "; Field (VStr (Sidebar.plant_name s)) ""];
    [Lit "Project Code: "; Field (VStr (Sidebar.project_code s)) ""];
    [Lit "Address: "; Field (VStr (Sidebar.address s)) ""];
    [Lit "Panel Power: "; Field (VInt (Sidebar.panel_power s)) ""; Lit " W"];
    [Lit "Panel Efficiency: "; Field (VFloat (Sidebar.efficiency s)) ""; Lit "%"];
    [Lit "Number of Panels: "; Field (VInt (Sidebar.num_panels s)) ""];
    [Lit "Panel Area: "; Field (VFloat (panel_area s)) ".2f"; Lit " m²"];
    [Lit "Total Expected Generation: "; Field (VFloat (total_expected r)) ".2f"; Lit " kWh"];
    [Lit "Total Actual Generation: "; Field (VFloat (total_actual r)) ".2f"; Lit " kWh"];
    [Lit "Overall Efficiency: "; Field (VFloat (overall_eff r)) ".2f"; Lit "%"];
    [Lit "Monthly Details:"];
    [Lit "Month | Irradiance | Expected | Actual | Efficiency"] ].

(** *** The cursor of the table

    The loop of lines 133-139 moves [y] by itself, whatever the rows hold. *)

(** [y] when the first row is drawn (lines 95-131). *)
Definition table_top : float :=
  (height - 40 - 30 - 15 - 15 - 30 - 15 - 15 - 15 - 30 - 15 - 15 - 30
   - 20 - 15 - 10)%float.

(** [y] at the top of a page begun by the loop (line 139). *)
Definition page_top : float := (height - 50)%float.

Definition breaks (y0 : float) : bool := (y0 - 15 <? 100)%float.

Definition next_cursor (y0 : float) : float :=
  if breaks y0 then page_top else (y0 - 15)%float.

Fixpoint cursor_after (n : nat) (y0 : float) : float :=
  match n with
  | O => y0
  | S n' => cursor_after n' (next_cursor y0)
  end.

Fixpoint page_breaks (n : nat) (y0 : float) : nat :=
  match n with
  | O => 0
  | S n' => (if breaks y0 then 1 else 0) + page_breaks n' (next_cursor y0)
  end.

(** The heights at which [n] rows are drawn, from [y0] on. *)
Fixpoint row_heights (n : nat) (y0 : float) : list float :=
  match n with
  | O => []
  | S n' => y0 :: row_heights n' (next_cursor y0)
  end.

(** The page that lines 95-131 draw on a new canvas. *)
Definition head_page (s : Sidebar.inputs) (r : Computed) : page :=
  match report_head s r (fresh_canvas []) with
  | Ok (_, w) => code w
  | Raise _ => []
  end.

(** The loop of lines 133-139 as a function of the pages shown, the page
    being drawn and the cursor. *)
Fixpoint lay_rows (d : DataFrame) (l : list Row) (sh : list page) (cd : page)
  (y0 : float) : list page * page * float :=
  match l with
  | [] => (sh, cd, y0)
  | row :: l' =>
      let cd' := cd ++ [drawString 50 y0 (table_line d row)] in
      if breaks y0 then lay_rows d l' (sh ++ [cd']) [] page_top
      else lay_rows d l' sh cd' (y0 - 15)%float
  end.

(** The two images below the last row (lines 144 and 149). *)
Definition image_ops (fig fig_eff : Figure) (y0 : float) : page :=
  [ drawImage fig 50 (y0 - 400)%float 500 300;
    drawImage fig_eff 50 (y0 - 400 - 400)%float 500 300 ].

(** The pages that the loop, the images and [c.save()] make of the page
    [hd] being drawn and the cursor [y0]. *)
Definition pages_from (d : DataFrame) (l : list Row) (hd : page) (y0 : float)
  (fig fig_eff : Figure) : list page :=
  match lay_rows d l [] hd y0 with
  | (sh, cd, y') => sh ++ [cd ++ image_ops fig fig_eff y']
  end.

(** The pages of the report. *)
Definition layout (s : Sidebar.inputs) (r : Computed) (fig fig_eff : Figure)
  : list page :=
  pages_from (df r) (rows (df r)) (head_page s r) table_top fig fig_eff.

(** The table's lines in drawing order, each at the cursor's height. *)
Fixpoint row_ops (d : DataFrame) (l : list Row) (y0 : float) : page :=
  match l with
  | [] => []
  | row :: l' =>
      drawString 50 y0 (table_line d row) :: row_ops d l' (next_cursor y0)
  end.

(** Closeness within a relative tolerance. *)
Definition within_rel (x ref tol : float) : bool :=
  (PrimFloat.abs (x - ref) <=? tol * PrimFloat.abs ref)%float.

(** The periods of a frame, in row order, and those of the first frame that
    the second has too. *)
Definition periods (d : DataFrame) : list string := map Month (rows d).

Definition common_periods (left right : DataFrame) : list string :=
  filter (fun p => mem p (periods right)) (periods left).

(** *** Files whose periods are text

    [pd.read_csv] types a column by its cells.  A [Month] column of month
    names is kept as text, and a period is then the text of its cell, as
    [Row] has it.  A label counts as text when it starts with a letter and
    is, whatever the case of its letters, none of the words that [read_csv]
    takes for a missing value, a number or a truth value.  A [Month] column
    of numbers is read as numbers, a blank label as [nan], and a file of a
    header and no line has no typed column: these are other inputs than
    the ones [text_periods] holds of. *)

Definition is_letter (c : ascii) : bool :=
  let n := nat_of_ascii c in
  ((65 <=? n)%nat && (n <=? 90)%nat) || ((97 <=? n)%nat && (n <=? 122)%nat).

Definition lower (c : ascii) : ascii :=
  let n := nat_of_ascii c in
  if ((65 <=? n)%nat && (n <=? 90)%nat) then ascii_of_nat (n + 32) else c.

Fixpoint lowercase (s : string) : string :=
  match s with
  | EmptyString => EmptyString
  | String c s' => String (lower c) (lowercase s')
  end.

Definition read_as_value : list string :=
  ["n/a"; "na"; "null"; "nan"; "none"; "inf"; "infinity"; "true"; "false"].

Definition text_label (p : string) : bool :=
  match p with
  | EmptyString => false
  | String c _ => is_letter c && negb (mem (lowercase p) read_as_value)
  end.

Definition text_periods (d : DataFrame) : bool :=
  match rows d with
  | [] => false
  | _ => forallb text_label (periods d)
  end.

(** Where a row is drawn: not below 100 points, not above the top of a
    page begun by the loop. *)
Definition on_page (h : float) : bool :=
  ((100 <=? h) && (h <=? page_top))%float.

(** The last character of a label. *)
Fixpoint last_char (s : string) : option ascii :=
  match s with
  | EmptyString => None
  | String a EmptyString => Some a
  | String _ s' => last_char s'
  end.

(** A label that is not [Month] and ends neither in [_x] nor in [_y]. *)
Definition plain_label (name : string) : Prop :=
  is_data name = true
  /\ last_char name <> Some "x"%char /\ last_char name <> Some "y"%char.

(** The bar that line 63 draws for a record. *)
Definition bar_of (d : DataFrame) (row : Row) : string * float * color :=
  (Month row, loc d "ActualGeneration" row,
   bar_color (loc d "MonthlyEfficiency" row)).

(** Rows the first page takes, and rows a later page takes. *)
Definition first_page_rows : nat := 29.
Definition later_page_rows : nat := 47.

(** ** Inputs used as examples *)

Module Scenario.

(** The sidebar's defaults with 18 %, 10 panels of 1.6 m x 1.0 m. *)
Definition sidebar : Sidebar.inputs :=
  Sidebar.mk "Plant" "P-1" "Street" 400 18%float 10 1.6%float 1.0%float.

Definition irradiance : DataFrame :=
  mkDataFrame ["Month"; "Irradiance"]
    [mkRow "Jan" [150%float]; mkRow "Feb" [160%float]].

Definition generation : DataFrame :=
  mkDataFrame ["Month"; "ActualGeneration"]
    [mkRow "Jan" [500%float]; mkRow "Feb" [520%float]].

(** The panel efficiency at its minimum, 0 %. *)
Definition sidebar_zero : Sidebar.inputs :=
  Sidebar.mk "Plant" "P-1" "Street" 400 0%float 10 1.6%float 1.0%float.

(** The cell of February is blank. *)
Definition irradiance_blank : DataFrame :=
  mkDataFrame ["Month"; "Irradiance"]
    [mkRow "Jan" [150%float]; mkRow "Feb" [nan]].

(** Periods that the irradiance file does not have. *)
Definition generation_other : DataFrame :=
  mkDataFrame ["Month"; "ActualGeneration"]
    [mkRow "Mar" [500%float]; mkRow "Apr" [520%float]].

(** A generation file without [ActualGeneration], and an irradiance file
    that has a column of that name. *)
Definition generation_renamed : DataFrame :=
  mkDataFrame ["Month"; "Output"]
    [mkRow "Jan" [500%float]; mkRow "Feb" [520%float]].

Definition irradiance_wide : DataFrame :=
  mkDataFrame ["Month"; "Irradiance"; "ActualGeneration"]
    [mkRow "Jan" [150%float; 480%float]; mkRow "Feb" [160%float; 510%float]].

(** January twice in the irradiance file and twice in the generation
    file. *)
Definition irradiance_twice : DataFrame :=
  mkDataFrame ["Month"; "Irradiance"]
    [mkRow "Jan" [150%float]; mkRow "Feb" [160%float]; mkRow "Jan" [155%float]].

Definition generation_twice : DataFrame :=
  mkDataFrame ["Month"; "ActualGeneration"]
    [mkRow "Jan" [500%float]; mkRow "Jan" [505%float]; mkRow "Feb" [520%float]].

(** Thirty periods, one more than the first page takes. *)
Definition label (n : nat) : string :=
  String (ascii_of_nat (65 + n)) EmptyString.

Definition irradiance_long : DataFrame :=
  mkDataFrame ["Month"; "Irradiance"]
    (map (fun n => mkRow (label n) [150%float]) (List.seq 0 30)).

Definition generation_long : DataFrame :=
  mkDataFrame ["Month"; "ActualGeneration"]
    (map (fun n => mkRow (label n) [500%float]) (List.seq 0 30)).

(** What lines 45-51 compute from the first three inputs, and its first
    record. *)
Definition merged : DataFrame :=
  mkDataFrame ["Month"; "Irradiance"; "ActualGeneration"]
    [mkRow "Jan" [150%float; 500%float]; mkRow "Feb" [160%float; 520%float]].

Definition computed : Computed := computed_from sidebar merged.

Definition jan : Row :=
  mkRow "Jan" [150%float; 500%float; 432%float; 115.74074074074075%float].

(** The same at 0 %. *)
Definition computed_zero : Computed := computed_from sidebar_zero merged.

Definition jan_zero : Row :=
  mkRow "Jan" [150%float; 500%float; 0%float; infinity].

(** The same panels at another plant, of another power. *)
Definition sidebar_other : Sidebar.inputs :=
  Sidebar.mk "Other plant" "P-2" "Road" 250 18%float 10 1.6%float 1.0%float.

(** A year of months, in two files. *)
Definition irradiance_year : DataFrame :=
  mkDataFrame ["Month"; "Irradiance"]
    (map (fun p => mkRow (fst p) [snd p])
       [("Jan", 90); ("Feb", 105); ("Mar", 135); ("Apr", 160);
        ("May", 185); ("Jun", 200); ("Jul", 210); ("Aug", 195);
        ("Sep", 165); ("Oct", 130); ("Nov", 100); ("Dec", 85)]%float).

Definition generation_year : DataFrame :=
  mkDataFrame ["Month"; "ActualGeneration"]
    (map (fun p => mkRow (fst p) [snd p])
       [("Jan", 260); ("Feb", 300); ("Mar", 390); ("Apr", 460);
        ("May", 530); ("Jun", 570); ("Jul", 600); ("Aug", 560);
        ("Sep", 470); ("Oct", 370); ("Nov", 290); ("Dec", 240)]%float).

End Scenario.

(** * Properties *)

(** ** Lists, labels and columns *)

Lemma mem_In (c : string) (l : list string) : mem c l = true <-> In c l.
Proof.
  unfold mem. rewrite existsb_exists. split.
  - intros [x [Hx He]]. apply String.eqb_eq in He. now subst.
  - intros H. exists c. split; [assumption | apply String.eqb_refl].
Qed.

Lemma mem_false_In (c : string) (l : list string) :
  mem c l = false <-> ~ In c l.
Proof.
  rewrite <- mem_In. destruct (mem c l); split; congruence.
Qed.

Lemma mem_app (c : string) (l1 l2 : list string) :
  mem c (l1 ++ l2) = mem c l1 || mem c l2.
Proof. unfold mem. apply existsb_app. Qed.

Lemma combine_map_same {A B C} (f : A -> B) (g : A -> C) (l : list A) :
  combine (map f l) (map g l) = map (fun a => (f a, g a)) l.
Proof. induction l as [|a l IH]; simpl; [reflexivity | now rewrite IH]. Qed.

Lemma combine_map_right {A B} (g : A -> B) (l : list A) :
  combine l (map g l) = map (fun a => (a, g a)) l.
Proof. induction l as [|a l IH]; simpl; [reflexivity | now rewrite IH]. Qed.

Lemma zip_with_map {A B C D} (f : B -> C -> D) (a : A -> B) (b : A -> C)
  (l : list A) :
  zip_with f (map a l) (map b l) = map (fun x => f (a x) (b x)) l.
Proof.
  unfold zip_with. rewrite combine_map_same, map_map. reflexivity.
Qed.

Lemma nth_index_of_map (name : string) (l : list string)
  (h : string -> float) (d : float) :
  mem name l = true -> nth (index_of name l) (map h l) d = h name.
Proof.
  induction l as [|c l IH]; simpl; [discriminate|].
  rewrite (String.eqb_sym name c).
  destruct (String.eqb_spec c name) as [->|Hne]; simpl; [reflexivity|].
  exact IH.
Qed.

Lemma index_of_app_in (name : string) (l1 l2 : list string) :
  mem name l1 = true -> index_of name (l1 ++ l2) = index_of name l1.
Proof.
  induction l1 as [|c l IH]; simpl; [discriminate|].
  rewrite (String.eqb_sym name c).
  destruct (String.eqb_spec c name); simpl; [reflexivity|].
  intros H. now rewrite IH.
Qed.

Lemma index_of_app_out (name : string) (l1 : list string) :
  mem name l1 = false -> index_of name (l1 ++ [name]) = List.length l1.
Proof.
  induction l1 as [|c l IH]; simpl.
  - now rewrite String.eqb_refl.
  - rewrite (String.eqb_sym name c).
    destruct (String.eqb_spec c name); simpl; [discriminate|].
    intros H. now rewrite IH.
Qed.

Lemma index_of_lt (name : string) (l : list string) :
  mem name l = true -> index_of name l < List.length l.
Proof.
  induction l as [|c l IH]; simpl; [discriminate|].
  rewrite (String.eqb_sym name c).
  destruct (String.eqb_spec c name); simpl; [lia|].
  intros H. specialize (IH H). lia.
Qed.

(** The columns after an assignment. *)
Lemma data_columns_setitem (d : DataFrame) (name : string) (vals : list float) :
  is_data name = true ->
  data_columns (setitem d name vals)
  = if mem name (data_columns d) then data_columns d
    else data_columns d ++ [name].
Proof.
  intros Hd. unfold setitem.
  destruct (mem name (data_columns d)); [reflexivity|].
  unfold data_columns; simpl. rewrite filter_app; simpl. now rewrite Hd.
Qed.

Lemma mem_data_setitem (d : DataFrame) (name c : string) (vals : list float) :
  is_data name = true ->
  mem c (data_columns (setitem d name vals))
  = mem c (data_columns d) || (c =? name).
Proof.
  intros Hd. rewrite data_columns_setitem by assumption.
  destruct (mem name (data_columns d)) eqn:Hm.
  - destruct (String.eqb_spec c name) as [->|]; [|now rewrite orb_false_r].
    now rewrite Hm.
  - rewrite mem_app. simpl. now rewrite orb_false_r.
Qed.

(** The records after [df[name] = map g rows]. *)
Lemma rows_setitem (d : DataFrame) (name : string) (g : Row -> float) :
  rows (setitem d name (map g (rows d))) = map (put d name g) (rows d).
Proof.
  unfold setitem, put. rewrite combine_map_right.
  destruct (mem name (data_columns d)); simpl; rewrite map_map; reflexivity.
Qed.

(** The assigned column reads back what was assigned. *)
Lemma loc_put_same (d : DataFrame) (name : string) (g : Row -> float)
  (vals : list float) (r : Row) :
  is_data name = true ->
  loc (setitem d name vals) name (put d name g r) = g r.
Proof.
  intros Hd. unfold loc. rewrite data_columns_setitem by assumption.
  unfold put; simpl.
  destruct (mem name (data_columns d)) eqn:Hm.
  - rewrite nth_index_of_map by assumption. now rewrite String.eqb_refl.
  - rewrite index_of_app_out by assumption.
    rewrite app_nth2; rewrite length_map; [|lia].
    now rewrite Nat.sub_diag.
Qed.

(** The other columns are left as they were. *)
Lemma loc_put_other (d : DataFrame) (name c : string) (g : Row -> float)
  (vals : list float) (r : Row) :
  is_data name = true -> c <> name -> mem c (data_columns d) = true ->
  loc (setitem d name vals) c (put d name g r) = loc d c r.
Proof.
  intros Hd Hne Hc. unfold loc at 1.
  rewrite data_columns_setitem by assumption.
  unfold put; simpl.
  destruct (mem name (data_columns d)) eqn:Hm.
  - rewrite nth_index_of_map by assumption.
    destruct (String.eqb_spec c name); [contradiction | reflexivity].
  - rewrite index_of_app_in by assumption.
    rewrite app_nth1 by (rewrite length_map; now apply index_of_lt).
    now rewrite nth_index_of_map.
Qed.

Lemma Month_put (d : DataFrame) (name : string) (g : Row -> float) (r : Row) :
  Month (put d name g r) = Month r.
Proof. reflexivity. Qed.

(** ** Lines 45-51, as one case analysis *)

Lemma compute_eq (s : Sidebar.inputs) (irradiance_df generation_df : DataFrame) :
  compute s irradiance_df generation_df
  = match merge irradiance_df generation_df with
    | Raise e => Raise e
    | Ok d0 =>
        if mem "Irradiance" (data_columns d0) then
          if mem "ActualGeneration" (data_columns d0)
          then Ok (computed_from s d0)
          else Raise (KeyError "ActualGeneration")
        else Raise (KeyError "Irradiance")
    end.
Proof.
  unfold compute, bind.
  destruct (merge irradiance_df generation_df) as [d0|e]; [|reflexivity].
  unfold getitem at 1.
  destruct (mem "Irradiance" (data_columns d0)) eqn:Hi; [|reflexivity].
  rewrite map_map. fold (expected_of s d0). fold (with_expected s d0).
  unfold getitem at 1. unfold with_expected at 1.
  rewrite mem_data_setitem by reflexivity. simpl (_ =? _). rewrite orb_false_r.
  destruct (mem "ActualGeneration" (data_columns d0)) eqn:Ha; [|reflexivity].
  fold (with_expected s d0).
  unfold getitem at 1. unfold with_expected at 1.
  rewrite mem_data_setitem by reflexivity. simpl (_ =? _). rewrite orb_true_r.
  rewrite zip_with_map. fold (efficiency_of (with_expected s d0)).
  fold (with_efficiency (with_expected s d0)).
  unfold getitem.
  assert (He : mem "ExpectedGeneration"
                 (data_columns (with_efficiency (with_expected s d0))) = true).
  { unfold with_efficiency, with_expected.
    rewrite !mem_data_setitem by reflexivity. simpl (_ =? _).
    now rewrite orb_true_r. }
  assert (Ha' : mem "ActualGeneration"
                  (data_columns (with_efficiency (with_expected s d0))) = true).
  { unfold with_efficiency, with_expected.
    rewrite !mem_data_setitem by reflexivity. simpl (_ =? _).
    now rewrite Ha. }
  rewrite He, Ha'. reflexivity.
Qed.

Lemma rows_with_expected (s : Sidebar.inputs) (d0 : DataFrame) :
  rows (with_expected s d0)
  = map (put d0 "ExpectedGeneration" (expected_of s d0)) (rows d0).
Proof. apply rows_setitem. Qed.

Lemma rows_computed_from (s : Sidebar.inputs) (d0 : DataFrame) :
  rows (df (computed_from s d0)) = map (derived_row s d0) (rows d0).
Proof.
  simpl. unfold with_efficiency. rewrite rows_setitem, rows_with_expected.
  now rewrite map_map.
Qed.

Lemma Month_derived_row (s : Sidebar.inputs) (d0 : DataFrame) (r : Row) :
  Month (derived_row s d0 r) = Month r.
Proof. reflexivity. Qed.

Section DerivedCells.

Variable s : Sidebar.inputs.
Variable d0 : DataFrame.
Hypothesis Hirr : mem "Irradiance" (data_columns d0) = true.
Hypothesis Hact : mem "ActualGeneration" (data_columns d0) = true.

Let d2 := df (computed_from s d0).

Lemma loc_Irradiance (r : Row) :
  loc d2 "Irradiance" (derived_row s d0 r) = loc d0 "Irradiance" r.
Proof.
  unfold d2, derived_row; simpl. unfold with_efficiency.
  rewrite loc_put_other; [| reflexivity | discriminate | ].
  - unfold with_expected.
    rewrite loc_put_other; [reflexivity | reflexivity | discriminate | exact Hirr].
  - unfold with_expected. rewrite mem_data_setitem by reflexivity.
    now rewrite Hirr.
Qed.

Lemma loc_ActualGeneration (r : Row) :
  loc d2 "ActualGeneration" (derived_row s d0 r) = loc d0 "ActualGeneration" r.
Proof.
  unfold d2, derived_row; simpl. unfold with_efficiency.
  rewrite loc_put_other; [| reflexivity | discriminate | ].
  - unfold with_expected.
    rewrite loc_put_other; [reflexivity | reflexivity | discriminate | exact Hact].
  - unfold with_expected. rewrite mem_data_setitem by reflexivity.
    now rewrite Hact.
Qed.

Lemma loc_ExpectedGeneration (r : Row) :
  loc d2 "ExpectedGeneration" (derived_row s d0 r)
  = (expected_factor s * loc d0 "Irradiance" r)%float.
Proof.
  unfold d2, derived_row; simpl. unfold with_efficiency.
  rewrite loc_put_other; [| reflexivity | discriminate | ].
  - unfold with_expected. now rewrite loc_put_same.
  - unfold with_expected. rewrite mem_data_setitem by reflexivity.
    simpl (_ =? _). now rewrite orb_true_r.
Qed.

Lemma loc_MonthlyEfficiency (r : Row) :
  loc d2 "MonthlyEfficiency" (derived_row s d0 r)
  = (loc d2 "ActualGeneration" (derived_row s d0 r)
     / loc d2 "ExpectedGeneration" (derived_row s d0 r) * 100)%float.
Proof.
  rewrite loc_ActualGeneration, loc_ExpectedGeneration.
  unfold d2, derived_row; simpl. unfold with_efficiency.
  rewrite loc_put_same by reflexivity.
  unfold efficiency_of, with_expected.
  rewrite loc_put_same by reflexivity.
  rewrite loc_put_other; [reflexivity | reflexivity | discriminate | exact Hact].
Qed.

End DerivedCells.

(** A run of lines 45-51 that ends well, taken apart. *)
Lemma compute_Ok_inv (s : Sidebar.inputs) (irradiance_df generation_df : DataFrame)
  (r : Computed) :
  compute s irradiance_df generation_df = Ok r ->
  exists d0,
    merge irradiance_df generation_df = Ok d0
    /\ mem "Irradiance" (data_columns d0) = true
    /\ mem "ActualGeneration" (data_columns d0) = true
    /\ r = computed_from s d0.
Proof.
  rewrite compute_eq.
  destruct (merge irradiance_df generation_df) as [d0|e]; [|discriminate].
  destruct (mem "Irradiance" (data_columns d0)) eqn:Hi; [|discriminate].
  destruct (mem "ActualGeneration" (data_columns d0)) eqn:Ha; [|discriminate].
  intros H. injection H as <-. now exists d0.
Qed.

(** ** The report block, step by step *)

Ltac run_script :=
  cbv [report_head report_images and_then ret y_set c_setFont c_drawString
       c_line c_drawImage y_minus emit savefig c_showPage page_break
       table_row tmp shown code y fresh_canvas].

Lemma report_head_run (s : Sidebar.inputs) (r : Computed) (w : World) :
  report_head s r w
  = Ok (tt, mkWorld (tmp w) (shown w) (code w ++ head_page s r) table_top).
Proof.
  destruct w as [fs sh cd y0].
  unfold head_page. run_script. cbn [app].
  rewrite <- !app_assoc. cbn [app]. reflexivity.
Qed.

Lemma texts_head_page (s : Sidebar.inputs) (r : Computed) :
  texts (head_page s r) = head_texts s r.
Proof. reflexivity. Qed.

Lemma table_heights_head_page (s : Sidebar.inputs) (r : Computed) :
  table_heights (head_page s r) = [].
Proof. reflexivity. Qed.

Lemma table_periods_head_page (s : Sidebar.inputs) (r : Computed) :
  table_periods (head_page s r) = [].
Proof. reflexivity. Qed.

Lemma table_row_run (d : DataFrame) (row : Row) (w : World) :
  table_row d row w
  = Ok (tt,
        let cd := code w ++ [drawString 50 (y w) (table_line d row)] in
        if breaks (y w)
        then mkWorld (tmp w) (shown w ++ [cd]) [] page_top
        else mkWorld (tmp w) (shown w) cd (y w - 15)%float).
Proof.
  destruct w as [fs sh cd y0].
  run_script. unfold breaks. cbn [app tmp shown code y].
  destruct (y0 - 15 <? 100)%float; reflexivity.
Qed.

Lemma for_each_table_row (d : DataFrame) (l : list Row) (w : World) :
  for_each l (table_row d) w
  = Ok (tt,
        match lay_rows d l (shown w) (code w) (y w) with
        | (sh, cd, y0) => mkWorld (tmp w) sh cd y0
        end).
Proof.
  revert w. induction l as [|row l IH]; intros w.
  - simpl. unfold ret. now destruct w.
  - simpl. unfold and_then. rewrite table_row_run. cbv zeta.
    destruct (breaks (y w)); rewrite IH; reflexivity.
Qed.

Lemma report_images_run (fig fig_eff : Figure) (w : World) :
  report_images fig fig_eff w
  = Ok (tt,
        mkWorld ((img_path_eff, fig_eff) :: (img_path, fig) :: tmp w)
          (shown w) (code w ++ image_ops fig fig_eff (y w))
          (y w - 400 - 400)%float).
Proof.
  destruct w as [fs sh cd y0].
  run_script. cbn [read_file img_path img_path_eff].
  simpl (_ =? _). cbv iota. unfold image_ops. cbn [tmp shown code y].
  rewrite <- app_assoc. reflexivity.
Qed.

(** The report block always ends, with the pages of [layout], whatever the
    files under [/tmp] were. *)
Lemma build_pdf_run (s : Sidebar.inputs) (r : Computed) (fig fig_eff : Figure)
  (fs : filesystem) :
  exists w,
    build_pdf s r fig fig_eff (fresh_canvas fs)
    = Ok (layout s r fig fig_eff, w).
Proof.
  unfold build_pdf, and_then, layout, pages_from.
  rewrite report_head_run, for_each_table_row.
  unfold fresh_canvas. cbn [tmp shown code y app].
  destruct (lay_rows (df r) (rows (df r)) [] (head_page s r) table_top)
    as [[sh cd] y0].
  rewrite report_images_run. cbn [tmp shown code y].
  unfold c_save, image_ops. cbn [tmp shown code y].
  destruct cd; cbn [app]; eexists; reflexivity.
Qed.

(** The button's three ends. *)
Lemma generate_report_eq (fs : filesystem) (s : Sidebar.inputs)
  (irradiance_df generation_df : DataFrame) :
  generate_report fs s irradiance_df generation_df
  = if negb (mem "Month" (columns irradiance_df))
       || negb (mem "Month" (columns generation_df))
    then MonthColumnMissing
    else match compute s irradiance_df generation_df with
         | Raise e => ErrorProcessingFiles e
         | Ok r =>
             ReportGenerated (generation_figure (df r))
               (efficiency_figure (df r))
               (layout s r (generation_figure (df r)) (efficiency_figure (df r)))
         end.
Proof.
  unfold generate_report.
  destruct (negb (mem "Month" (columns irradiance_df))
            || negb (mem "Month" (columns generation_df))); [reflexivity|].
  destruct (compute s irradiance_df generation_df) as [r|e]; [|reflexivity].
  destruct (build_pdf_run s r (generation_figure (df r))
              (efficiency_figure (df r)) fs) as [w Hw].
  cbv zeta. now rewrite Hw.
Qed.

(** ** The table's loop *)

Lemma texts_app (p q : page) : texts (p ++ q) = texts p ++ texts q.
Proof. apply flat_map_app. Qed.

Lemma table_heights_app (p q : page) :
  table_heights (p ++ q) = table_heights p ++ table_heights q.
Proof. apply flat_map_app. Qed.

Lemma table_periods_app (p q : page) :
  table_periods (p ++ q) = table_periods p ++ table_periods q.
Proof. apply flat_map_app. Qed.

Lemma texts_row_ops (d : DataFrame) (l : list Row) (y0 : float) :
  texts (row_ops d l y0) = map (table_line d) l.
Proof.
  revert y0. induction l as [|row l IH]; intros y0; simpl; [reflexivity|].
  now rewrite IH.
Qed.

Lemma table_heights_row_ops (d : DataFrame) (l : list Row) (y0 : float) :
  table_heights (row_ops d l y0) = row_heights (List.length l) y0.
Proof.
  revert y0. induction l as [|row l IH]; intros y0; simpl; [reflexivity|].
  now rewrite IH.
Qed.

Lemma table_periods_row_ops (d : DataFrame) (l : list Row) (y0 : float) :
  table_periods (row_ops d l y0) = map Month l.
Proof.
  revert y0. induction l as [|row l IH]; intros y0; simpl; [reflexivity|].
  now rewrite IH.
Qed.

(** The loop draws every row once, in order, at the cursor; it shows a page
    each time the cursor breaks. *)
Lemma lay_rows_spec (d : DataFrame) (l : list Row) (sh : list page) (cd : page)
  (y0 : float) :
  match lay_rows d l sh cd y0 with
  | (sh', cd', y') =>
      List.concat sh' ++ cd' = List.concat sh ++ cd ++ row_ops d l y0
      /\ List.length sh' = List.length sh + page_breaks (List.length l) y0
      /\ y' = cursor_after (List.length l) y0
  end.
Proof.
  revert sh cd y0. induction l as [|row l IH]; intros sh cd y0; simpl.
  - rewrite app_nil_r. repeat split. lia.
  - unfold next_cursor. destruct (breaks y0).
    + specialize (IH (sh ++ [cd ++ [drawString 50 y0 (table_line d row)]])
                    [] page_top).
      destruct (lay_rows d l _ [] page_top) as [[sh' cd'] y'].
      destruct IH as [Hc [Hl Hy]]. repeat split.
      * rewrite Hc, concat_app. simpl. rewrite app_nil_r.
        now rewrite <- !app_assoc.
      * rewrite Hl, length_app. simpl. lia.
      * exact Hy.
    + specialize (IH sh (cd ++ [drawString 50 y0 (table_line d row)])
                    (y0 - 15)%float).
      destruct (lay_rows d l sh _ (y0 - 15)%float) as [[sh' cd'] y'].
      destruct IH as [Hc [Hl Hy]]. repeat split.
      * rewrite Hc. now rewrite <- !app_assoc.
      * exact Hl.
      * exact Hy.
Qed.

(** The pages from [hd] and [y0] on, read in order, and their number. *)
Lemma pages_from_spec (d : DataFrame) (l : list Row) (hd : page) (y0 : float)
  (fig fig_eff : Figure) :
  List.concat (pages_from d l hd y0 fig fig_eff)
  = hd ++ row_ops d l y0
    ++ image_ops fig fig_eff (cursor_after (List.length l) y0)
  /\ List.length (pages_from d l hd y0 fig fig_eff)
     = 1 + page_breaks (List.length l) y0.
Proof.
  unfold pages_from.
  pose proof (lay_rows_spec d l [] hd y0) as H.
  destruct (lay_rows d l [] hd y0) as [[sh cd] y'].
  destruct H as [Hc [Hl Hy]]. cbn [List.concat app List.length] in Hc, Hl.
  subst y'. split.
  - rewrite concat_app. cbn [List.concat]. rewrite app_nil_r, app_assoc, Hc.
    rewrite <- app_assoc. reflexivity.
  - rewrite length_app. cbn [List.length]. lia.
Qed.

(** The pages of the report, read in order, and their number. *)
Lemma layout_spec (s : Sidebar.inputs) (r : Computed) (fig fig_eff : Figure) :
  List.concat (layout s r fig fig_eff)
  = head_page s r ++ row_ops (df r) (rows (df r)) table_top
    ++ image_ops fig fig_eff
         (cursor_after (List.length (rows (df r))) table_top)
  /\ List.length (layout s r fig fig_eff)
     = 1 + page_breaks (List.length (rows (df r))) table_top.
Proof. apply pages_from_spec. Qed.

(** ** The cursor's arithmetic *)

Lemma cursor_after_add (a b : nat) (y0 : float) :
  cursor_after (a + b) y0 = cursor_after b (cursor_after a y0).
Proof. revert y0. induction a as [|a IH]; intros y0; simpl; auto. Qed.

Lemma page_breaks_add (a b : nat) (y0 : float) :
  page_breaks (a + b) y0
  = page_breaks a y0 + page_breaks b (cursor_after a y0).
Proof.
  revert y0. induction a as [|a IH]; intros y0; simpl; [reflexivity|].
  rewrite IH. lia.
Qed.

Lemma In_row_heights (n : nat) (y0 h : float) :
  In h (row_heights n y0) -> exists i, i < n /\ h = cursor_after i y0.
Proof.
  revert y0. induction n as [|n IH]; intros y0; simpl; [contradiction|].
  intros [<-|Hin].
  - exists 0. split; [lia | reflexivity].
  - destruct (IH _ Hin) as [i [Hi ->]]. exists (S i). split; [lia | reflexivity].
Qed.

Lemma below (n : nat) (P : nat -> bool) :
  forallb P (List.seq 0 n) = true -> forall k, k < n -> P k = true.
Proof.
  intros H k Hk. rewrite forallb_forall in H. apply H. apply in_seq. lia.
Qed.

(** The first page takes 29 rows and breaks after the 29th. *)
Lemma first_page_no_break (k : nat) :
  k < first_page_rows -> page_breaks k table_top = 0.
Proof.
  intros Hk. apply Nat.eqb_eq.
  apply (below first_page_rows
           (fun k => page_breaks k table_top =? 0)%nat); [|assumption].
  vm_compute. reflexivity.
Qed.

Lemma first_page_break :
  page_breaks first_page_rows table_top = 1
  /\ cursor_after first_page_rows table_top = page_top.
Proof. split; vm_compute; reflexivity. Qed.

(** A later page takes 47 rows and breaks after the 47th. *)
Lemma later_page_no_break (k : nat) :
  k < later_page_rows -> page_breaks k page_top = 0.
Proof.
  intros Hk. apply Nat.eqb_eq.
  apply (below later_page_rows
           (fun k => page_breaks k page_top =? 0)%nat); [|assumption].
  vm_compute. reflexivity.
Qed.

Lemma later_page_break :
  page_breaks later_page_rows page_top = 1
  /\ cursor_after later_page_rows page_top = page_top.
Proof. split; vm_compute; reflexivity. Qed.

Lemma later_pages (q k : nat) :
  k < later_page_rows ->
  page_breaks (later_page_rows * q + k) page_top = q
  /\ cursor_after (later_page_rows * q + k) page_top
     = cursor_after k page_top.
Proof.
  intros Hk. induction q as [|q [IHb IHc]].
  - rewrite Nat.mul_0_r. simpl. split; [|reflexivity].
    now apply later_page_no_break.
  - replace (later_page_rows * S q + k)
      with (later_page_rows + (later_page_rows * q + k)) by lia.
    rewrite page_breaks_add, cursor_after_add.
    destruct later_page_break as [-> ->]. rewrite IHb, IHc.
    split; [lia | reflexivity].
Qed.

(** The number of page breaks of a table of [n] rows. *)
Lemma page_breaks_table (n : nat) :
  page_breaks n table_top
  = if (n <? first_page_rows)%nat then 0
    else 1 + (n - first_page_rows) / later_page_rows.
Proof.
  destruct (Nat.ltb_spec n first_page_rows) as [Hlt|Hge].
  - now apply first_page_no_break.
  - replace n with (first_page_rows + (n - first_page_rows)) at 1 by lia.
    rewrite page_breaks_add. destruct first_page_break as [-> ->].
    f_equal.
    set (m := n - first_page_rows).
    rewrite (Nat.div_mod_eq m later_page_rows) at 1.
    apply later_pages. apply Nat.mod_upper_bound. discriminate.
Qed.

Lemma cursor_on_page (i : nat) : on_page (cursor_after i table_top) = true.
Proof.
  destruct (Nat.lt_ge_cases i first_page_rows) as [Hlt|Hge].
  - apply (below first_page_rows
             (fun k => on_page (cursor_after k table_top))); [|assumption].
    vm_compute. reflexivity.
  - replace i with (first_page_rows + (i - first_page_rows)) by lia.
    rewrite cursor_after_add. destruct first_page_break as [_ ->].
    set (m := i - first_page_rows).
    rewrite (Nat.div_mod_eq m later_page_rows).
    assert (Hk : m mod later_page_rows < later_page_rows)
      by (apply Nat.mod_upper_bound; discriminate).
    destruct (later_pages (m / later_page_rows) _ Hk) as [_ ->].
    apply (below later_page_rows
             (fun k => on_page (cursor_after k page_top))); [|assumption].
    vm_compute. reflexivity.
Qed.

(** ** The merge *)

Lemma merge_Ok_inv (left right d : DataFrame) :
  merge left right = Ok d ->
  columns d
  = map (lsuffix (data_columns right)) (columns left)
    ++ map (rsuffix (data_columns left)) (data_columns right)
  /\ rows d
     = flat_map (fun l => map (join left right l) (matches l right))
         (rows left).
Proof.
  unfold merge.
  destruct (new_duplicates _ _ _ || new_duplicates _ _ _); [discriminate|].
  intros H. injection H as <-. split; reflexivity.
Qed.

Lemma length_matches (l : Row) (right : DataFrame) :
  List.length (matches l right)
  = count_occ string_dec (periods right) (Month l).
Proof.
  unfold matches, periods.
  induction (rows right) as [|r rs IH]; simpl; [reflexivity|].
  destruct (String.eqb_spec (Month r) (Month l)) as [E|E];
    destruct (string_dec (Month r) (Month l)); try contradiction; simpl;
    now rewrite IH.
Qed.

Lemma periods_join (left right : DataFrame) (l : Row) :
  map Month (map (join left right l) (matches l right))
  = repeat (Month l) (count_occ string_dec (periods right) (Month l)).
Proof.
  rewrite <- length_matches.
  induction (matches l right) as [|r rs IH]; simpl; [reflexivity|].
  now rewrite IH.
Qed.

(** The periods of the merged frame: those of the left frame in its order,
    each as many times as the right frame has it. *)
Lemma periods_merge (left right d : DataFrame) :
  merge left right = Ok d ->
  periods d
  = flat_map (fun l => repeat (Month l)
                         (count_occ string_dec (periods right) (Month l)))
      (rows left).
Proof.
  intros H. destruct (merge_Ok_inv _ _ _ H) as [_ Hr].
  unfold periods at 1. rewrite Hr. clear Hr H.
  induction (rows left) as [|l ls IH]; simpl; [reflexivity|].
  now rewrite map_app, periods_join, IH.
Qed.

Lemma count_occ_repeat (p q : string) (n : nat) :
  count_occ string_dec (repeat q n) p = if string_dec q p then n else 0.
Proof.
  induction n as [|n IH]; simpl.
  - now destruct (string_dec q p).
  - destruct (string_dec q p); [now rewrite IH | exact IH].
Qed.

(** A period is in the merged frame once for every pair of records that
    have it. *)
Lemma count_periods_merge (left right d : DataFrame) (p : string) :
  merge left right = Ok d ->
  count_occ string_dec (periods d) p
  = count_occ string_dec (periods left) p
    * count_occ string_dec (periods right) p.
Proof.
  intros H. rewrite (periods_merge _ _ _ H). unfold periods at 2.
  induction (rows left) as [|l ls IH]; simpl; [reflexivity|].
  rewrite count_occ_app, count_occ_repeat, IH.
  destruct (string_dec (Month l) p) as [->|]; lia.
Qed.

Lemma periods_computed_from (s : Sidebar.inputs) (d0 : DataFrame) :
  periods (df (computed_from s d0)) = periods d0.
Proof.
  unfold periods. rewrite rows_computed_from, map_map.
  apply map_ext. intros r. apply Month_derived_row.
Qed.

(** When the right frame has every period once, the merged periods are the
    common ones, in the left frame's order. *)
Lemma periods_merge_unique (left right d : DataFrame) :
  merge left right = Ok d ->
  NoDup (periods right) ->
  periods d = common_periods left right.
Proof.
  intros H Hnd. rewrite (periods_merge _ _ _ H).
  unfold common_periods, periods at 3.
  induction (rows left) as [|l ls IH]; simpl; [reflexivity|].
  rewrite IH. destruct (mem (Month l) (periods right)) eqn:Hm.
  - apply mem_In in Hm.
    rewrite (proj1 (NoDup_count_occ' string_dec (periods right)) Hnd _ Hm).
    reflexivity.
  - apply mem_false_In in Hm.
    rewrite (proj1 (count_occ_not_In string_dec _ _) Hm). reflexivity.
Qed.

Lemma In_common_periods (left right : DataFrame) (p : string) :
  In p (common_periods left right)
  <-> In p (periods left) /\ In p (periods right).
Proof.
  unfold common_periods. rewrite filter_In, mem_In. reflexivity.
Qed.

(** ** Binary64 facts, from the specification of the primitive floats *)

Lemma eqb_zero_inv (e : float) :
  (e =? 0)%float = true -> exists sg, Prim2SF e = S754_zero sg.
Proof.
  rewrite FloatAxioms.eqb_spec. change (Prim2SF 0) with (S754_zero false).
  destruct (Prim2SF e) as [sg| sg | | sg m ex]; simpl; try discriminate.
  - intros _. now exists sg.
  - destruct sg; discriminate.
  - destruct sg; discriminate.
Qed.

Lemma is_finite_spec (x : float) :
  is_finite x = match Prim2SF x with
                | S754_nan | S754_infinity _ => false
                | _ => true
                end.
Proof.
  unfold is_finite, is_nan, is_infinity.
  rewrite !FloatAxioms.eqb_spec, abs_spec.
  change (Prim2SF infinity) with (S754_infinity false).
  destruct (Prim2SF x) as [sg| sg | | sg m ex]; simpl; try reflexivity.
  - now destruct sg.
  - unfold SFeqb, SFcompare. destruct sg;
      rewrite Z.compare_refl, Pos.compare_cont_refl; reflexivity.
Qed.

(** Whatever is divided by a zero, the quotient times 100 is an infinity or
    a [nan]. *)
Lemma div_zero_times_100 (a e : float) :
  (e =? 0)%float = true -> is_finite (a / e * 100)%float = false.
Proof.
  intros He. destruct (eqb_zero_inv e He) as [sg Hsg].
  rewrite is_finite_spec, mul_spec, div_spec, Hsg.
  change (Prim2SF 100) with (S754_finite false 7036874417766400 (-46)).
  destruct (Prim2SF a) as [sa| sa | | sa m ex]; reflexivity.
Qed.

Lemma ltb_leb (a b : float) : (a <? b)%float = true -> (a <=? b)%float = true.
Proof.
  rewrite ltb_spec, leb_spec. unfold SFltb, SFleb.
  destruct (SFcompare (Prim2SF a) (Prim2SF b)) as [[]|]; congruence.
Qed.

Lemma SFcompare_antisym (x y : spec_float) :
  SFcompare y x = option_map CompOpp (SFcompare x y).
Proof.
  destruct x as [sx|sx| |sx mx ex], y as [sy|sy| |sy my ey];
    try reflexivity; try (now destruct sx, sy).
  assert (P : Pos.compare_cont Eq my mx = CompOpp (Pos.compare_cont Eq mx my))
    by (symmetry; apply (Pos.compare_cont_antisym mx my Eq)).
  cbn [SFcompare option_map]. rewrite (Z.compare_antisym ey ex), P.
  destruct sx, sy; try reflexivity;
    destruct (ey ?= ex)%Z; cbn [CompOpp];
    try reflexivity; destruct (Pos.compare_cont Eq mx my); reflexivity.
Qed.

Lemma SFcompare_refl (x : spec_float) :
  x <> S754_nan -> SFcompare x x = Some Eq.
Proof.
  destruct x as [sx|sx| |sx mx ex]; intros H; try congruence;
    try (now destruct sx).
  cbn [SFcompare]. rewrite Z.compare_refl, Pos.compare_cont_refl.
  now destruct sx.
Qed.

Lemma is_nan_spec (x : float) :
  PrimFloat.is_nan x = match Prim2SF x with S754_nan => true | _ => false end.
Proof.
  unfold PrimFloat.is_nan. rewrite FloatAxioms.eqb_spec. unfold SFeqb.
  destruct (Prim2SF x) as [sx|sx| |sx mx ex] eqn:E;
    try (rewrite SFcompare_refl by congruence); reflexivity.
Qed.

Lemma SFcompare_not_nan (x y : spec_float) (c : comparison) :
  SFcompare x y = Some c -> x <> S754_nan /\ y <> S754_nan.
Proof.
  destruct x, y; cbn [SFcompare]; intros H; split; congruence.
Qed.

Lemma ltb_inv (a b : float) :
  (a <? b)%float = true ->
  PrimFloat.is_nan a = false /\ PrimFloat.is_nan b = false
  /\ (a <=? b)%float = true /\ (b <=? a)%float = false
  /\ (b <? a)%float = false.
Proof.
  rewrite !is_nan_spec, !ltb_spec, !leb_spec. unfold SFltb, SFleb.
  rewrite (SFcompare_antisym (Prim2SF a) (Prim2SF b)).
  destruct (SFcompare (Prim2SF a) (Prim2SF b)) as [c|] eqn:E;
    [|discriminate].
  destruct (SFcompare_not_nan _ _ _ E) as [Ha Hb].
  destruct c; try discriminate. intros _.
  destruct (Prim2SF a), (Prim2SF b); try congruence; repeat split.
Qed.

Lemma leb_inv (a b : float) :
  (a <=? b)%float = true ->
  PrimFloat.is_nan a = false /\ PrimFloat.is_nan b = false.
Proof.
  rewrite !is_nan_spec, !leb_spec. unfold SFleb.
  destruct (SFcompare (Prim2SF a) (Prim2SF b)) as [c|] eqn:E;
    [|discriminate].
  destruct (SFcompare_not_nan _ _ _ E) as [Ha Hb]. intros _.
  destruct (Prim2SF a), (Prim2SF b); try congruence; split; reflexivity.
Qed.

(** [np.clip(x, 0, 1)] is [x] clamped to the interval from 0 to 1: 0 below
    the interval, 1 above it, [x] itself inside it, and [x] when [x] is a
    [nan]. *)
Lemma np_clip_unit (x : float) :
  (PrimFloat.is_nan x = true -> np_clip x 0 1 = x)
  /\ ((x <? 0)%float = true -> np_clip x 0 1 = 0%float)
  /\ ((1 <? x)%float = true -> np_clip x 0 1 = 1%float)
  /\ ((0 <=? x)%float = true -> (x <=? 1)%float = true -> np_clip x 0 1 = x).
Proof.
  unfold np_clip. repeat split.
  - intros Hn. now rewrite Hn.
  - intros H. destruct (ltb_inv _ _ H) as (Hn & _ & _ & Hle & _).
    rewrite Hn, Hle. reflexivity.
  - intros H. destruct (ltb_inv _ _ H) as (_ & Hn & _ & Hle & _).
    assert (H0 : (0 <=? x)%float = true).
    { revert H. rewrite ltb_spec, leb_spec. unfold SFltb, SFleb.
      change (Prim2SF 0) with (S754_zero false).
      change (Prim2SF 1) with (S754_finite false 4503599627370496 (-52)).
      destruct (Prim2SF x) as [sx|sx| |sx mx ex];
        try discriminate; now destruct sx. }
    rewrite Hn, H0, Hle. reflexivity.
  - intros H0 H1. destruct (leb_inv _ _ H0) as [_ Hn].
    rewrite Hn, H0, H1. reflexivity.
Qed.

Lemma float_neq (a b : float) : (a =? a)%float <> (b =? b)%float -> a <> b.
Proof. intros H E. apply H. now rewrite E. Qed.

(** ** The figures and the pages of a report *)

Lemma actual_bars_generation_figure (d : DataFrame) :
  actual_bars (generation_figure d) = map (bar_of d) (rows d).
Proof.
  unfold generation_figure, actual_bars.
  rewrite !flat_map_app. cbn [flat_map app].
  assert (H1 : forall l,
             flat_map (fun a => match a with
                                | ax_bar x h c None _ =>
                                    map (fun p => (fst p, snd p, c))
                                      (combine x h)
                                | _ => []
                                end) (map (actual_bar d) l)
             = map (bar_of d) l).
  { induction l as [|row l IH]; simpl; [reflexivity | now rewrite IH]. }
  assert (H2 : forall l,
             flat_map (fun a => match a with
                                | ax_bar x h c None _ =>
                                    map (fun p => (fst p, snd p, c))
                                      (combine x h)
                                | _ => []
                                end) (flat_map (value_labels d) l)
             = []).
  { induction l as [|row l IH]; simpl; [reflexivity | exact IH]. }
  rewrite H1, H2, app_nil_r. reflexivity.
Qed.

Lemma series_labels_generation_figure (d : DataFrame) :
  series_labels (generation_figure d) = periods d.
Proof.
  unfold generation_figure, series_labels.
  rewrite !flat_map_app. simpl.
  assert (H1 : forall l,
             flat_map (fun a => match a with
                                | ax_bar x _ _ (Some _) _ => x
                                | ax_plot x _ _ _ _ => x
                                | _ => []
                                end) (map (actual_bar d) l) = []).
  { induction l as [|row l IH]; simpl; [reflexivity | exact IH]. }
  assert (H2 : forall l,
             flat_map (fun a => match a with
                                | ax_bar x _ _ (Some _) _ => x
                                | ax_plot x _ _ _ _ => x
                                | _ => []
                                end) (flat_map (value_labels d) l) = []).
  { induction l as [|row l IH]; simpl; [reflexivity | exact IH]. }
  rewrite H1, H2, !app_nil_r. reflexivity.
Qed.

Lemma series_labels_efficiency_figure (d : DataFrame) :
  series_labels (efficiency_figure d) = periods d.
Proof. unfold efficiency_figure, series_labels. simpl. now rewrite app_nil_r. Qed.

Lemma texts_layout (s : Sidebar.inputs) (r : Computed) (fig fig_eff : Figure) :
  texts (List.concat (layout s r fig fig_eff))
  = head_texts s r ++ map (table_line (df r)) (rows (df r)).
Proof.
  rewrite (proj1 (layout_spec s r fig fig_eff)).
  rewrite !texts_app, texts_head_page, texts_row_ops.
  unfold image_ops. cbn [texts flat_map app]. now rewrite app_nil_r.
Qed.

Lemma table_periods_layout (s : Sidebar.inputs) (r : Computed)
  (fig fig_eff : Figure) :
  table_periods (List.concat (layout s r fig fig_eff)) = periods (df r).
Proof.
  rewrite (proj1 (layout_spec s r fig fig_eff)).
  rewrite !table_periods_app, table_periods_head_page, table_periods_row_ops.
  unfold image_ops. cbn [table_periods flat_map app]. now rewrite app_nil_r.
Qed.

Lemma table_heights_layout (s : Sidebar.inputs) (r : Computed)
  (fig fig_eff : Figure) :
  table_heights (List.concat (layout s r fig fig_eff))
  = row_heights (List.length (rows (df r))) table_top.
Proof.
  rewrite (proj1 (layout_spec s r fig fig_eff)).
  rewrite !table_heights_app, table_heights_head_page, table_heights_row_ops.
  unfold image_ops. cbn [table_heights flat_map app]. now rewrite app_nil_r.
Qed.

(** A report that was generated, taken apart. *)
Lemma ReportGenerated_inv (fs : filesystem) (s : Sidebar.inputs)
  (irradiance_df generation_df : DataFrame) (fig fig_eff : Figure)
  (pdf_data : list page) :
  generate_report fs s irradiance_df generation_df
  = ReportGenerated fig fig_eff pdf_data ->
  exists r,
    compute s irradiance_df generation_df = Ok r
    /\ fig = generation_figure (df r)
    /\ fig_eff = efficiency_figure (df r)
    /\ pdf_data = layout s r fig fig_eff.
Proof.
  rewrite generate_report_eq.
  destruct (negb _ || negb _); [discriminate|].
  destruct (compute s irradiance_df generation_df) as [r|e]; [|discriminate].
  intros H. injection H as <- <- <-. now exists r.
Qed.

(** With [Month] in both headers and lines 45-51 done, the report is
    generated. *)
Lemma ReportGenerated_intro (fs : filesystem) (s : Sidebar.inputs)
  (irradiance_df generation_df : DataFrame) (r : Computed) :
  mem "Month" (columns irradiance_df) = true ->
  mem "Month" (columns generation_df) = true ->
  compute s irradiance_df generation_df = Ok r ->
  generate_report fs s irradiance_df generation_df
  = ReportGenerated (generation_figure (df r)) (efficiency_figure (df r))
      (layout s r (generation_figure (df r)) (efficiency_figure (df r))).
Proof.
  intros Hi Hg Hc. rewrite generate_report_eq, Hi, Hg, Hc. reflexivity.
Qed.

(** * The properties of the specification *)

(** C1.  Every merged row's expected generation is
    [(efficiency / 100) * num_panels * (length * width)] times its
    irradiance, to the last bit; with 18 %, 10 panels of 1.6 m x 1.0 m and
    irradiances 150 and 160, January's is 432.0 and February's 460.8 within
    a relative tolerance of 1e-9. *)
Theorem expected_generation_derivation :
  (forall (s : Sidebar.inputs) (irradiance_df generation_df : DataFrame)
          (r : Computed) (row : Row),
      compute s irradiance_df generation_df = Ok r ->
      In row (rows (df r)) ->
      loc (df r) "ExpectedGeneration" row
      = (Sidebar.efficiency s / 100 * float_of_int (Sidebar.num_panels s)
         * (Sidebar.length s * Sidebar.width s)
         * loc (df r) "Irradiance" row)%float)
  /\ (exists r jan feb,
         compute Scenario.sidebar Scenario.irradiance Scenario.generation = Ok r
         /\ map (fun row => (Month row, loc (df r) "Irradiance" row,
                             loc (df r) "ExpectedGeneration" row))
              (rows (df r))
            = [("Jan", 150%float, jan); ("Feb", 160%float, feb)]
         /\ within_rel jan 432.0 1e-9 = true
         /\ within_rel feb 460.8 1e-9 = true).
Proof.
  split.
  - intros s irr gen r row Hc Hin.
    destruct (compute_Ok_inv _ _ _ _ Hc) as [d0 [_ [Hi [Ha ->]]]].
    rewrite rows_computed_from in Hin. apply in_map_iff in Hin.
    destruct Hin as [r0 [<- _]].
    rewrite loc_ExpectedGeneration, loc_Irradiance by assumption.
    reflexivity.
  - exists Scenario.computed, 432%float, 460.79999999999995%float.
    repeat split; vm_compute; reflexivity.
Qed.

(** The theorem of C1 on January of the scenario. *)
Lemma expected_generation_derivation_witness :
  compute Scenario.sidebar Scenario.irradiance Scenario.generation
  = Ok Scenario.computed
  /\ In Scenario.jan (rows (df Scenario.computed))
  /\ loc (df Scenario.computed) "ExpectedGeneration" Scenario.jan
     = (18 / 100 * float_of_int 10 * (1.6 * 1.0)
        * loc (df Scenario.computed) "Irradiance" Scenario.jan)%float.
Proof.
  assert (Hc : compute Scenario.sidebar Scenario.irradiance Scenario.generation
               = Ok Scenario.computed) by (vm_compute; reflexivity).
  assert (Hin : In Scenario.jan (rows (df Scenario.computed)))
    by (left; vm_compute; reflexivity).
  split; [exact Hc | split; [exact Hin|]].
  exact (proj1 expected_generation_derivation Scenario.sidebar
           Scenario.irradiance Scenario.generation Scenario.computed
           Scenario.jan Hc Hin).
Defined.

(** The monthly efficiency of a merged row (line 47). *)
Lemma monthly_efficiency_derivation (s : Sidebar.inputs)
  (irradiance_df generation_df : DataFrame) (r : Computed) (row : Row) :
  compute s irradiance_df generation_df = Ok r ->
  In row (rows (df r)) ->
  loc (df r) "MonthlyEfficiency" row
  = (loc (df r) "ActualGeneration" row
     / loc (df r) "ExpectedGeneration" row * 100)%float.
Proof.
  intros Hc Hin.
  destruct (compute_Ok_inv _ _ _ _ Hc) as [d0 [_ [Hi [Ha ->]]]].
  rewrite rows_computed_from in Hin. apply in_map_iff in Hin.
  destruct Hin as [r0 [<- _]].
  now apply loc_MonthlyEfficiency.
Qed.

(** C2, as the code has it.  No error is raised for a merged row whose
    expected generation is zero: its monthly efficiency is an infinity or a
    [nan], the report is generated all the same, and the table prints the
    row with that value. *)
Theorem zero_expected_reaches_report (fs : filesystem) (s : Sidebar.inputs)
  (irradiance_df generation_df : DataFrame) (r : Computed) (row : Row) :
  mem "Month" (columns irradiance_df) = true ->
  mem "Month" (columns generation_df) = true ->
  compute s irradiance_df generation_df = Ok r ->
  In row (rows (df r)) ->
  (loc (df r) "ExpectedGeneration" row =? 0)%float = true ->
  PrimFloat.is_finite (loc (df r) "MonthlyEfficiency" row) = false
  /\ exists fig fig_eff pdf_data,
       generate_report fs s irradiance_df generation_df
       = ReportGenerated fig fig_eff pdf_data
       /\ In (table_line (df r) row) (texts (List.concat pdf_data)).
Proof.
  intros Hi Hg Hc Hin Hz. split.
  - rewrite (monthly_efficiency_derivation _ _ _ _ _ Hc Hin).
    now apply div_zero_times_100.
  - eexists _, _, _. split.
    + exact (ReportGenerated_intro fs s _ _ r Hi Hg Hc).
    + rewrite texts_layout. apply in_or_app. right. now apply in_map.
Qed.

(** C2 as stated fails: with the panel efficiency at 0 % the expected
    generation of January is 0, no error is raised, and the report's table
    prints January with an infinite monthly efficiency. *)
Lemma zero_expected_counterexample :
  exists r row fig fig_eff pdf_data,
    compute Scenario.sidebar_zero Scenario.irradiance Scenario.generation = Ok r
    /\ In row (rows (df r))
    /\ loc (df r) "ExpectedGeneration" row = 0%float
    /\ loc (df r) "MonthlyEfficiency" row = infinity
    /\ generate_report [] Scenario.sidebar_zero Scenario.irradiance
         Scenario.generation
       = ReportGenerated fig fig_eff pdf_data
    /\ In (table_line (df r) row) (texts (List.concat pdf_data)).
Proof.
  exists Scenario.computed_zero, Scenario.jan_zero.
  eexists _, _, _.
  split; [vm_compute; reflexivity|].
  split; [left; reflexivity|].
  split; [vm_compute; reflexivity|].
  split; [vm_compute; reflexivity|].
  split; [vm_compute; reflexivity|].
  vm_compute. do 13 right. left. reflexivity.
Qed.

(** The theorem of C2 on January of the scenario at 0 %. *)
Lemma zero_expected_reaches_report_witness :
  PrimFloat.is_finite
    (loc (df Scenario.computed_zero) "MonthlyEfficiency" Scenario.jan_zero)
  = false
  /\ exists fig fig_eff pdf_data,
       generate_report [] Scenario.sidebar_zero Scenario.irradiance
         Scenario.generation
       = ReportGenerated fig fig_eff pdf_data
       /\ In (table_line (df Scenario.computed_zero) Scenario.jan_zero)
            (texts (List.concat pdf_data)).
Proof.
  apply (zero_expected_reaches_report [] Scenario.sidebar_zero
           Scenario.irradiance Scenario.generation).
  - reflexivity.
  - reflexivity.
  - vm_compute. reflexivity.
  - left. vm_compute. reflexivity.
  - vm_compute. reflexivity.
Defined.

(** C3.  The merge is an inner join on the period: a period is in the
    merged frame when both data sets have it, and a period that only one of
    them has is not there; with every period once in each data set, the
    merged rows are as many as the periods that both have, each of them
    once, in the order of the first data set.  Lines 46-47 keep the rows and
    their periods. *)
Theorem merge_is_inner_join (irradiance_df generation_df d : DataFrame) :
  merge irradiance_df generation_df = Ok d ->
  (forall p, In p (periods d)
             <-> In p (periods irradiance_df) /\ In p (periods generation_df))
  /\ (NoDup (periods irradiance_df) ->
      NoDup (periods generation_df) ->
      List.length (rows d)
      = List.length (common_periods irradiance_df generation_df)
      /\ periods d = common_periods irradiance_df generation_df
      /\ NoDup (periods d))
  /\ (forall s r, compute s irradiance_df generation_df = Ok r ->
                  List.length (rows (df r)) = List.length (rows d)
                  /\ periods (df r) = periods d).
Proof.
  intros Hm. split; [|split].
  - intros p.
    rewrite !(count_occ_In string_dec), (count_periods_merge _ _ _ p Hm).
    nia.
  - intros Hi Hg.
    pose proof (periods_merge_unique _ _ _ Hm Hg) as Hp.
    split; [|split].
    + rewrite <- Hp. unfold periods. now rewrite length_map.
    + exact Hp.
    + rewrite Hp. unfold common_periods. now apply NoDup_filter.
  - intros s r Hc.
    destruct (compute_Ok_inv _ _ _ _ Hc) as [d0 [Hm0 [_ [_ ->]]]].
    rewrite Hm in Hm0. injection Hm0 as <-. split.
    + rewrite rows_computed_from. now rewrite length_map.
    + apply periods_computed_from.
Qed.

(** The theorem of C3 on the two files of the scenario: January and
    February are in both. *)
Lemma merge_is_inner_join_witness :
  merge Scenario.irradiance Scenario.generation = Ok Scenario.merged
  /\ List.length (rows Scenario.merged) = 2
  /\ periods Scenario.merged
     = common_periods Scenario.irradiance Scenario.generation
  /\ NoDup (periods Scenario.merged).
Proof.
  assert (Hm : merge Scenario.irradiance Scenario.generation
               = Ok Scenario.merged) by (vm_compute; reflexivity).
  split; [exact Hm|].
  assert (Hi : NoDup (periods Scenario.irradiance))
    by (repeat constructor; simpl; intuition discriminate).
  assert (Hg : NoDup (periods Scenario.generation))
    by (repeat constructor; simpl; intuition discriminate).
  destruct (proj1 (proj2 (merge_is_inner_join Scenario.irradiance
                            Scenario.generation Scenario.merged Hm)) Hi Hg)
    as [Hl [Hp Hn]].
  split; [reflexivity|]. split; [exact Hp | exact Hn].
Defined.

(** C10.  A period that is in a data set more than once is in the merged
    frame once for every pair of rows that have it, and the run goes on to
    its report, which has the period as many times in the bars and the line
    of the figures and in the table: it is neither merged into one row nor
    refused. *)
Theorem duplicate_periods_cross_product (fs : filesystem) (s : Sidebar.inputs)
  (irradiance_df generation_df : DataFrame) (r : Computed) (p : string) :
  mem "Month" (columns irradiance_df) = true ->
  mem "Month" (columns generation_df) = true ->
  text_periods irradiance_df = true ->
  text_periods generation_df = true ->
  compute s irradiance_df generation_df = Ok r ->
  let pairs := count_occ string_dec (periods irradiance_df) p
               * count_occ string_dec (periods generation_df) p in
  count_occ string_dec (periods (df r)) p = pairs
  /\ exists fig fig_eff pdf_data,
       generate_report fs s irradiance_df generation_df
       = ReportGenerated fig fig_eff pdf_data
       /\ count_occ string_dec (map (fun b => fst (fst b)) (actual_bars fig)) p
          = pairs
       /\ count_occ string_dec (series_labels fig) p = pairs
       /\ count_occ string_dec (series_labels fig_eff) p = pairs
       /\ count_occ string_dec (table_periods (List.concat pdf_data)) p = pairs.
Proof.
  intros Hi Hg _ _ Hcomp pairs.
  assert (Hc : count_occ string_dec (periods (df r)) p = pairs).
  { destruct (compute_Ok_inv _ _ _ _ Hcomp) as [d [Hm [_ [_ ->]]]].
    rewrite periods_computed_from. apply (count_periods_merge _ _ _ p Hm). }
  split; [exact Hc|].
  rewrite (ReportGenerated_intro fs _ _ _ _ Hi Hg Hcomp).
  eexists _, _, _. split; [reflexivity|].
  rewrite actual_bars_generation_figure, map_map.
  rewrite series_labels_generation_figure, series_labels_efficiency_figure,
    table_periods_layout.
  repeat split; exact Hc.
Qed.

(** The theorem of C10 where January is twice in each file: the report is
    generated, with four bars and four table rows of January. *)
Lemma duplicate_periods_cross_product_witness :
  exists fig fig_eff pdf_data,
    generate_report [] Scenario.sidebar Scenario.irradiance_twice
      Scenario.generation_twice
    = ReportGenerated fig fig_eff pdf_data
    /\ count_occ string_dec (map (fun b => fst (fst b)) (actual_bars fig)) "Jan"
       = 4
    /\ count_occ string_dec (table_periods (List.concat pdf_data)) "Jan" = 4.
Proof.
  assert (Hc : exists r, compute Scenario.sidebar Scenario.irradiance_twice
                           Scenario.generation_twice = Ok r)
    by (eexists; vm_compute; reflexivity).
  destruct Hc as [r Hc].
  destruct (duplicate_periods_cross_product [] Scenario.sidebar
              Scenario.irradiance_twice Scenario.generation_twice r "Jan"
              eq_refl eq_refl eq_refl eq_refl Hc)
    as [_ [fig [fig_eff [pdf_data [Hr [Hb [_ [_ Ht]]]]]]]].
  exists fig, fig_eff, pdf_data.
  split; [exact Hr|]. split; [exact Hb | exact Ht].
Defined.

(** C8.  The merged rows come in the order of the irradiance data set (each
    of its rows gives its merged rows before the next one does), and the
    run goes on to its report, whose figures and table show the merged rows
    in that order: the columns of the expected bars and of the efficiency
    line, the bars drawn one by one, and the lines of the table. *)
Theorem row_order_preserved (fs : filesystem) (s : Sidebar.inputs)
  (irradiance_df generation_df : DataFrame) (r : Computed) :
  mem "Month" (columns irradiance_df) = true ->
  mem "Month" (columns generation_df) = true ->
  text_periods irradiance_df = true ->
  text_periods generation_df = true ->
  compute s irradiance_df generation_df = Ok r ->
  periods (df r)
  = flat_map (fun l => repeat (Month l)
                         (count_occ string_dec (periods generation_df)
                            (Month l)))
      (rows irradiance_df)
  /\ exists fig fig_eff pdf_data,
       generate_report fs s irradiance_df generation_df
       = ReportGenerated fig fig_eff pdf_data
       /\ series_labels fig = periods (df r)
       /\ actual_bars fig = map (bar_of (df r)) (rows (df r))
       /\ series_labels fig_eff = periods (df r)
       /\ texts (List.concat pdf_data)
          = head_texts s r ++ map (table_line (df r)) (rows (df r))
       /\ table_periods (List.concat pdf_data) = periods (df r).
Proof.
  intros Hi Hg _ _ Hcomp. split.
  - destruct (compute_Ok_inv _ _ _ _ Hcomp) as [d [Hm [_ [_ ->]]]].
    rewrite periods_computed_from. now apply periods_merge.
  - rewrite (ReportGenerated_intro fs _ _ _ _ Hi Hg Hcomp).
    eexists _, _, _. split; [reflexivity|].
    rewrite series_labels_generation_figure, series_labels_efficiency_figure,
      actual_bars_generation_figure, texts_layout, table_periods_layout.
    repeat split.
Qed.

(** The theorem of C8 on the same two files, where the generation file has
    its rows in another order than the irradiance file: the bars and the
    table follow the irradiance file. *)
Lemma row_order_preserved_witness :
  exists fig fig_eff pdf_data,
    generate_report [] Scenario.sidebar Scenario.irradiance_twice
      Scenario.generation_twice
    = ReportGenerated fig fig_eff pdf_data
    /\ series_labels fig = ["Jan"; "Jan"; "Feb"; "Jan"; "Jan"]
    /\ table_periods (List.concat pdf_data)
       = ["Jan"; "Jan"; "Feb"; "Jan"; "Jan"].
Proof.
  assert (Hc : exists r, compute Scenario.sidebar Scenario.irradiance_twice
                           Scenario.generation_twice = Ok r)
    by (eexists; vm_compute; reflexivity).
  destruct Hc as [r Hc].
  destruct (row_order_preserved [] Scenario.sidebar
              Scenario.irradiance_twice Scenario.generation_twice r
              eq_refl eq_refl eq_refl eq_refl Hc)
    as [Hp [fig [fig_eff [pdf_data [Hr [Hl [_ [_ [_ Ht]]]]]]]]].
  exists fig, fig_eff, pdf_data.
  split; [exact Hr|]. rewrite Hl, Ht, Hp. split; reflexivity.
Defined.

(** C9.  A run is a function of the two data sets and the sidebar alone:
    whatever files earlier runs left behind, the figures and the pages are
    the same.  In the report, a period's bar of actual generation has the
    colour of the map [RdYlGn_r] at that period's monthly efficiency over
    100 clamped to the interval from 0 to 1: at 0 when it is below 0, at 1
    when it is above 1, at the efficiency over 100 itself in between, and at
    [nan] when it is a [nan].  So all the efficiencies above the interval
    have one colour, and all those below it have one colour. *)
Theorem report_is_deterministic :
  (forall fs1 fs2 s irradiance_df generation_df,
      generate_report fs1 s irradiance_df generation_df
      = generate_report fs2 s irradiance_df generation_df)
  /\ (forall fs s irradiance_df generation_df r,
         mem "Month" (columns irradiance_df) = true ->
         mem "Month" (columns generation_df) = true ->
         text_periods irradiance_df = true ->
         text_periods generation_df = true ->
         compute s irradiance_df generation_df = Ok r ->
         exists fig fig_eff pdf_data,
           generate_report fs s irradiance_df generation_df
           = ReportGenerated fig fig_eff pdf_data
           /\ actual_bars fig
              = map (fun row =>
                       (Month row, loc (df r) "ActualGeneration" row,
                        RdYlGn_r
                          (np_clip (loc (df r) "MonthlyEfficiency" row / 100)
                             0 1)%float))
                  (rows (df r)))
  /\ (forall x,
         (PrimFloat.is_nan x = true -> np_clip x 0 1 = x)
         /\ ((x <? 0)%float = true -> np_clip x 0 1 = 0%float)
         /\ ((1 <? x)%float = true -> np_clip x 0 1 = 1%float)
         /\ ((0 <=? x)%float = true -> (x <=? 1)%float = true ->
             np_clip x 0 1 = x))
  /\ (forall e1 e2,
         (1 <? e1 / 100)%float = true -> (1 <? e2 / 100)%float = true ->
         bar_color e1 = bar_color e2)
  /\ (forall e1 e2,
         (e1 / 100 <? 0)%float = true -> (e2 / 100 <? 0)%float = true ->
         bar_color e1 = bar_color e2).
Proof.
  split; [|split; [|split; [|split]]].
  - intros fs1 fs2 s irr gen. now rewrite !generate_report_eq.
  - intros fs s irr gen r Hi Hg _ _ Hcomp.
    rewrite (ReportGenerated_intro fs _ _ _ _ Hi Hg Hcomp).
    eexists _, _, _. split; [reflexivity|].
    rewrite actual_bars_generation_figure. reflexivity.
  - apply np_clip_unit.
  - intros e1 e2 H1 H2. unfold bar_color.
    rewrite (proj1 (proj2 (proj2 (np_clip_unit _))) H1).
    now rewrite (proj1 (proj2 (proj2 (np_clip_unit _))) H2).
  - intros e1 e2 H1 H2. unfold bar_color.
    rewrite (proj1 (proj2 (np_clip_unit _)) H1).
    now rewrite (proj1 (proj2 (np_clip_unit _)) H2).
Qed.

(** The theorem of C9 on the scenario, run once with no file under [/tmp]
    and once with two; on its report, whose two bars, of efficiencies of
    115.7 % and 112.8 %, have the colour of the map at 1; and on
    efficiencies of 150 % and 200 %, which have that colour too. *)
Lemma report_is_deterministic_witness :
  generate_report [] Scenario.sidebar Scenario.irradiance Scenario.generation
  = generate_report [(img_path, []); (img_path_eff, [ax_grid])]
      Scenario.sidebar Scenario.irradiance Scenario.generation
  /\ (exists fig fig_eff pdf_data,
         generate_report [] Scenario.sidebar Scenario.irradiance
           Scenario.generation
         = ReportGenerated fig fig_eff pdf_data
         /\ map snd (actual_bars fig) = [RdYlGn_r 1; RdYlGn_r 1])
  /\ bar_color 150 = bar_color 200
  /\ bar_color 150 = RdYlGn_r 1.
Proof.
  split; [|split; [|split]].
  - exact (proj1 report_is_deterministic [] _ Scenario.sidebar
             Scenario.irradiance Scenario.generation).
  - destruct (proj1 (proj2 report_is_deterministic) [] Scenario.sidebar
                Scenario.irradiance Scenario.generation Scenario.computed
                eq_refl eq_refl eq_refl eq_refl eq_refl)
      as [fig [fig_eff [pdf_data [Hr Hb]]]].
    exists fig, fig_eff, pdf_data. split; [exact Hr|].
    rewrite Hb. vm_compute. reflexivity.
  - apply (proj1 (proj2 (proj2 (proj2 report_is_deterministic))));
      vm_compute; reflexivity.
  - unfold bar_color.
    rewrite (proj1 (proj2 (proj2 (proj1 (proj2 (proj2 report_is_deterministic))
                                    (150 / 100)%float))));
      [reflexivity | vm_compute; reflexivity].
Defined.

(** C7.  The table is paginated by the cursor: every row is drawn once, in
    order, at the cursor, which goes down 15 points a row and, when that
    takes it below 100, to the top of a new page; so no row is drawn below
    100 points, the first page takes 29 rows and a later one 47, and a
    table of 29 rows or more gives a report of more than one page. *)
Theorem report_table_pagination (s : Sidebar.inputs) (r : Computed)
  (fig fig_eff : Figure) (fs : filesystem) :
  let n := List.length (rows (df r)) in
  exists pdf_data w,
    build_pdf s r fig fig_eff (fresh_canvas fs) = Ok (pdf_data, w)
    /\ texts (List.concat pdf_data)
       = head_texts s r ++ map (table_line (df r)) (rows (df r))
    /\ table_heights (List.concat pdf_data) = row_heights n table_top
    /\ forallb on_page (table_heights (List.concat pdf_data)) = true
    /\ List.length pdf_data
       = 1 + (if (n <? first_page_rows)%nat then 0
              else 1 + (n - first_page_rows) / later_page_rows)
    /\ (List.length pdf_data = 1 <-> n < first_page_rows).
Proof.
  intros n. destruct (build_pdf_run s r fig fig_eff fs) as [w Hw].
  exists (layout s r fig fig_eff), w.
  split; [exact Hw|].
  split; [apply texts_layout|].
  split; [apply table_heights_layout|].
  assert (Hlen : List.length (layout s r fig fig_eff)
                 = 1 + (if (n <? first_page_rows)%nat then 0
                        else 1 + (n - first_page_rows) / later_page_rows)).
  { rewrite (proj2 (layout_spec s r fig fig_eff)).
    now rewrite page_breaks_table. }
  split; [|split; [exact Hlen|]].
  - rewrite table_heights_layout. apply forallb_forall.
    intros h Hin. destruct (In_row_heights _ _ _ Hin) as [i [_ ->]].
    apply cursor_on_page.
  - rewrite Hlen. destruct (Nat.ltb_spec n first_page_rows); lia.
Qed.

(** ** Sums *)

Lemma fillna0_id (l : list float) :
  forallb (fun x => negb (PrimFloat.is_nan x)) l = true ->
  map fillna0 l = l.
Proof.
  induction l as [|x l IH]; simpl; [reflexivity|].
  intros H. apply andb_true_iff in H. destruct H as [Hx Hl].
  unfold fillna0 at 1. apply negb_true_iff in Hx. rewrite Hx.
  now rewrite IH.
Qed.

(** *** The order of the additions *)

Lemma pairwise_sum_eq (fuel : nat) (l : list float) :
  pairwise_sum fuel l
  = if (List.length l <? 8)%nat then fold_left PrimFloat.add l (-0)%float
    else if (List.length l <=? 128)%nat then block_sum l
    else match fuel with
         | O => block_sum l
         | S fuel' =>
             let n2 := (Nat.div (List.length l) 2
                        - Nat.modulo (Nat.div (List.length l) 2) 8)%nat in
             (pairwise_sum fuel' (firstn n2 l)
              + pairwise_sum fuel' (skipn n2 l))%float
         end.
Proof. destruct fuel; reflexivity. Qed.

Lemma same_or_zeros_add (x y a : float) :
  same_or_zeros x y -> same_or_zeros (x + a)%float (y + a)%float.
Proof.
  intros [->|[Hx Hy]]; [now left|].
  destruct (Prim2SF a) as [sa|sa| |sa ma ea] eqn:Ha.
  - destruct sa.
    + right. rewrite !add_spec, Hx, Hy, Ha. split; reflexivity.
    + left. apply Prim2SF_inj. rewrite !add_spec, Hx, Hy, Ha. reflexivity.
  - left. apply Prim2SF_inj. rewrite !add_spec, Hx, Hy, Ha. reflexivity.
  - left. apply Prim2SF_inj. rewrite !add_spec, Hx, Hy, Ha. reflexivity.
  - left. apply Prim2SF_inj. rewrite !add_spec, Hx, Hy, Ha. reflexivity.
Qed.

Lemma same_or_zeros_fold (l : list float) (x y : float) :
  same_or_zeros x y ->
  same_or_zeros (fold_left PrimFloat.add l x) (fold_left PrimFloat.add l y).
Proof.
  revert x y. induction l as [|a l IH]; intros x y H; [exact H|].
  apply IH. now apply same_or_zeros_add.
Qed.

(** Fewer than eight values are added in row order. *)
Lemma np_sum_short (l : list float) :
  List.length l < 8 -> np_sum l = (0 + fsum l)%float.
Proof.
  intros H. unfold np_sum, fsum. rewrite pairwise_sum_eq.
  destruct (Nat.ltb_spec (List.length l) 8) as [_|]; [|lia].
  assert (R : same_or_zeros (-0)%float 0%float) by (right; split; reflexivity).
  destruct (same_or_zeros_fold l _ _ R) as [->|[Hx Hy]]; [reflexivity|].
  apply Prim2SF_inj. rewrite !add_spec, Hx, Hy. reflexivity.
Qed.

(** Eight values to 128 are added in eight running sums. *)
Lemma np_sum_block (l : list float) :
  8 <= List.length l <= 128 -> np_sum l = (0 + block_sum l)%float.
Proof.
  intros [H8 H128]. unfold np_sum. rewrite pairwise_sum_eq.
  destruct (Nat.ltb_spec (List.length l) 8); [lia|].
  destruct (Nat.leb_spec (List.length l) 128); [reflexivity|lia].
Qed.

(** The two orders do not give the same float64: ten tenths add up to 1 in
    eight running sums and to less in row order. *)
Lemma np_sum_ten_tenths :
  np_sum (repeat 0.1%float 10) = 1%float
  /\ fsum (repeat 0.1%float 10) = 0.99999999999999989%float.
Proof. split; vm_compute; reflexivity. Qed.

(** C4, as the code has it.  The totals are the sums of the expected and of
    the actual generation over the merged rows with every [nan] counted as
    0 (a missing value adds nothing), added up in numpy's order: in row
    order when the rows are fewer than eight, in eight running sums when
    they are eight to 128.  The overall efficiency is the total actual over
    the total expected, times 100.  The two files have their periods as
    text, and the actual generations are below 2^53 together. *)
Theorem aggregate_totals (s : Sidebar.inputs)
  (irradiance_df generation_df : DataFrame) (r : Computed) :
  mem "Month" (columns irradiance_df) = true ->
  mem "Month" (columns generation_df) = true ->
  text_periods irradiance_df = true ->
  text_periods generation_df = true ->
  compute s irradiance_df generation_df = Ok r ->
  let expected := map (loc (df r) "ExpectedGeneration") (rows (df r)) in
  let actual := map (loc (df r) "ActualGeneration") (rows (df r)) in
  let n := List.length (rows (df r)) in
  below_2_53 actual = true ->
  total_expected r = np_sum (map fillna0 expected)
  /\ total_actual r = np_sum (map fillna0 actual)
  /\ overall_eff r = (total_actual r / total_expected r * 100)%float
  /\ (forallb (fun x => negb (PrimFloat.is_nan x)) expected = true ->
      total_expected r = np_sum expected)
  /\ (forallb (fun x => negb (PrimFloat.is_nan x)) actual = true ->
      total_actual r = np_sum actual)
  /\ (n < 8 ->
      total_expected r = (0 + fsum (map fillna0 expected))%float
      /\ total_actual r = (0 + fsum (map fillna0 actual))%float)
  /\ (8 <= n <= 128 ->
      total_expected r = (0 + block_sum (map fillna0 expected))%float
      /\ total_actual r = (0 + block_sum (map fillna0 actual))%float).
Proof.
  intros _ _ _ _ Hc expected actual n _.
  destruct (compute_Ok_inv _ _ _ _ Hc) as [d0 [_ [_ [_ ->]]]].
  subst expected actual n.
  cbn [total_expected total_actual overall_eff computed_from].
  unfold Series_sum.
  split; [reflexivity|]. split; [reflexivity|]. split; [reflexivity|].
  split; [|split; [|split]].
  - intros Hn. apply fillna0_id in Hn. cbn [df computed_from] in Hn |- *.
    now rewrite Hn.
  - intros Hn. apply fillna0_id in Hn. cbn [df computed_from] in Hn |- *.
    now rewrite Hn.
  - intros Hn. split; apply np_sum_short; now rewrite !length_map.
  - intros Hn. split; apply np_sum_block; now rewrite !length_map.
Qed.

(** C4 as stated fails: with February's irradiance missing, the expected
    generation of February is a [nan] and the sum over all merged rows is a
    [nan], while the total reported is January's 432. *)
Lemma aggregate_totals_counterexample :
  exists r,
    compute Scenario.sidebar Scenario.irradiance_blank Scenario.generation = Ok r
    /\ List.length (rows (df r)) = 2
    /\ total_expected r = 432%float
    /\ fsum (map (loc (df r) "ExpectedGeneration") (rows (df r))) = nan
    /\ total_expected r
       <> fsum (map (loc (df r) "ExpectedGeneration") (rows (df r))).
Proof.
  eexists. split; [vm_compute; reflexivity|].
  split; [reflexivity|].
  split; [vm_compute; reflexivity|].
  split; [vm_compute; reflexivity|].
  apply float_neq. vm_compute. discriminate.
Qed.

(** The theorem of C4 on a year of months: the total expected is the sum in
    eight running sums, 5068.799999999999, where the sum in row order is
    5068.8. *)
Lemma aggregate_totals_witness :
  exists r,
    compute Scenario.sidebar Scenario.irradiance_year Scenario.generation_year
    = Ok r
    /\ total_expected r
       = (0 + block_sum (map fillna0 (map (loc (df r) "ExpectedGeneration")
                                        (rows (df r)))))%float
    /\ total_expected r = 5068.7999999999993%float
    /\ fsum (map (loc (df r) "ExpectedGeneration") (rows (df r)))
       = 5068.8000000000002%float
    /\ total_actual r = 5040%float
    /\ overall_eff r = (total_actual r / total_expected r * 100)%float.
Proof.
  assert (Hc : exists r, compute Scenario.sidebar Scenario.irradiance_year
                           Scenario.generation_year = Ok r
                         /\ below_2_53 (map (loc (df r) "ActualGeneration")
                                          (rows (df r))) = true
                         /\ List.length (rows (df r)) = 12
                         /\ total_expected r = 5068.7999999999993%float
                         /\ fsum (map (loc (df r) "ExpectedGeneration")
                                    (rows (df r)))
                            = 5068.8000000000002%float
                         /\ total_actual r = 5040%float)
    by (eexists; repeat split; vm_compute; reflexivity).
  destruct Hc as [r [Hc [Hb [Hn [He [Hf Ha]]]]]].
  pose proof (aggregate_totals Scenario.sidebar Scenario.irradiance_year
                Scenario.generation_year r eq_refl eq_refl eq_refl eq_refl
                Hc Hb) as H.
  cbv zeta in H. destruct H as [_ [_ [Ho [_ [_ [_ Hblock]]]]]].
  exists r. split; [exact Hc|].
  split; [apply Hblock; rewrite Hn; lia|].
  split; [exact He|]. split; [exact Hf|]. split; [exact Ha | exact Ho].
Defined.

(** ** The header of the merged frame *)

Lemma last_char_append (c : string) (a : ascii) (t : string) :
  last_char (c ++ String a t) = last_char (String a t).
Proof.
  induction c as [|b c IH]; [reflexivity|].
  change (String b c ++ String a t)%string with (String b (c ++ String a t)).
  remember (c ++ String a t)%string as X eqn:E.
  destruct X as [|x X'].
  - destruct c; discriminate.
  - change (last_char (String b (String x X')))
      with (last_char (String x X')).
    exact IH.
Qed.

Lemma mem_data_columns (name : string) (d : DataFrame) :
  is_data name = true -> mem name (data_columns d) = mem name (columns d).
Proof.
  intros Hd. unfold data_columns.
  induction (columns d) as [|c l IH]; simpl; [reflexivity|].
  destruct (is_data c) eqn:Hc; simpl.
  - now rewrite IH.
  - rewrite IH. destruct (String.eqb_spec name c) as [->|]; [|reflexivity].
    congruence.
Qed.

Lemma mem_map_lsuffix (name : string) (other l : list string) :
  plain_label name ->
  mem name (map (lsuffix other) l) = mem name l && negb (mem name other).
Proof.
  intros [Hd [Hx _]]. induction l as [|c l IH]; simpl; [reflexivity|].
  rewrite IH. unfold lsuffix at 1.
  destruct (String.eqb_spec c "Month") as [->|Hm].
  - destruct (String.eqb_spec name "Month") as [->|]; [discriminate Hd|].
    reflexivity.
  - destruct (mem c other) eqn:Hc.
    + destruct (String.eqb_spec name (c ++ "_x")) as [->|].
      * exfalso. apply Hx. now rewrite last_char_append.
      * destruct (String.eqb_spec name c) as [->|]; [|reflexivity].
        rewrite Hc; simpl; rewrite ?andb_false_r; reflexivity.
    + destruct (String.eqb_spec name c) as [->|]; [|reflexivity].
      rewrite Hc; simpl; rewrite ?andb_false_r; reflexivity.
Qed.

Lemma mem_map_rsuffix (name : string) (other l : list string) :
  plain_label name ->
  mem name (map (rsuffix other) l) = mem name l && negb (mem name other).
Proof.
  intros [Hd [_ Hy]]. induction l as [|c l IH]; simpl; [reflexivity|].
  rewrite IH. unfold rsuffix at 1.
  destruct (String.eqb_spec c "Month") as [->|Hm].
  - destruct (String.eqb_spec name "Month") as [->|]; [discriminate Hd|].
    reflexivity.
  - destruct (mem c other) eqn:Hc.
    + destruct (String.eqb_spec name (c ++ "_y")) as [->|].
      * exfalso. apply Hy. now rewrite last_char_append.
      * destruct (String.eqb_spec name c) as [->|]; [|reflexivity].
        rewrite Hc; simpl; rewrite ?andb_false_r; reflexivity.
    + destruct (String.eqb_spec name c) as [->|]; [|reflexivity].
      rewrite Hc; simpl; rewrite ?andb_false_r; reflexivity.
Qed.

(** The merged frame has a plain label when exactly one of the two frames
    has it. *)
Lemma mem_columns_merge (left right d : DataFrame) (name : string) :
  plain_label name ->
  merge left right = Ok d ->
  mem name (columns d)
  = xorb (mem name (columns left)) (mem name (columns right)).
Proof.
  intros Hp Hm. destruct (merge_Ok_inv _ _ _ Hm) as [-> _].
  rewrite mem_app, mem_map_lsuffix, mem_map_rsuffix by assumption.
  destruct Hp as [Hd _].
  rewrite !mem_data_columns by assumption.
  destruct (mem name (columns left)), (mem name (columns right)); reflexivity.
Qed.

(** C5, as the code has it.  With [Month] in both headers and the merge
    done, the merged frame has [Irradiance] (and likewise
    [ActualGeneration]) when exactly one of the two data sets has a column
    of that name.  Without [Irradiance] the run stops in the general handler
    on [KeyError('Irradiance')]; with it and without [ActualGeneration], on
    [KeyError('ActualGeneration')]; no report is generated in either
    case. *)
Theorem missing_column_key_error (fs : filesystem) (s : Sidebar.inputs)
  (irradiance_df generation_df d : DataFrame) :
  mem "Month" (columns irradiance_df) = true ->
  mem "Month" (columns generation_df) = true ->
  merge irradiance_df generation_df = Ok d ->
  mem "Irradiance" (columns d)
  = xorb (mem "Irradiance" (columns irradiance_df))
      (mem "Irradiance" (columns generation_df))
  /\ mem "ActualGeneration" (columns d)
     = xorb (mem "ActualGeneration" (columns irradiance_df))
         (mem "ActualGeneration" (columns generation_df))
  /\ (mem "Irradiance" (columns d) = false ->
      generate_report fs s irradiance_df generation_df
      = ErrorProcessingFiles (KeyError "Irradiance"))
  /\ (mem "Irradiance" (columns d) = true ->
      mem "ActualGeneration" (columns d) = false ->
      generate_report fs s irradiance_df generation_df
      = ErrorProcessingFiles (KeyError "ActualGeneration")).
Proof.
  intros Hi Hg Hm.
  split; [|split; [|split]].
  - apply mem_columns_merge; [|assumption].
    repeat split; simpl; discriminate.
  - apply mem_columns_merge; [|assumption].
    repeat split; simpl; discriminate.
  - intros Hno. rewrite generate_report_eq, Hi, Hg, compute_eq, Hm.
    rewrite mem_data_columns, Hno by reflexivity. reflexivity.
  - intros Hyes Hno. rewrite generate_report_eq, Hi, Hg, compute_eq, Hm.
    rewrite !mem_data_columns, Hyes, Hno by reflexivity. reflexivity.
Qed.

(** C5 as stated fails: the generation file has no [ActualGeneration], the
    irradiance file has a column of that name, and the report is
    generated. *)
Lemma missing_column_counterexample :
  mem "ActualGeneration" (columns Scenario.generation_renamed) = false
  /\ exists fig fig_eff pdf_data,
       generate_report [] Scenario.sidebar Scenario.irradiance_wide
         Scenario.generation_renamed
       = ReportGenerated fig fig_eff pdf_data.
Proof.
  split; [reflexivity|].
  eexists _, _, _. vm_compute. reflexivity.
Qed.

(** The theorem of C5 on a generation file without [ActualGeneration]. *)
Lemma missing_column_key_error_witness :
  mem "ActualGeneration" (columns Scenario.generation_renamed) = false
  /\ generate_report [] Scenario.sidebar Scenario.irradiance
       Scenario.generation_renamed
     = ErrorProcessingFiles (KeyError "ActualGeneration").
Proof.
  split; [reflexivity|].
  refine (proj2 (proj2 (proj2
            (missing_column_key_error [] Scenario.sidebar Scenario.irradiance
               Scenario.generation_renamed
               (mkDataFrame ["Month"; "Irradiance"; "Output"]
                  [mkRow "Jan" [150%float; 500%float];
                   mkRow "Feb" [160%float; 520%float]])
               _ _ _))) _ _).
  - reflexivity.
  - reflexivity.
  - vm_compute. reflexivity.
  - reflexivity.
  - reflexivity.
Defined.

(** ** An empty join *)

(** Month names are text; a month number, a blank label and [NaN] are
    not, nor is a file of a header and no line. *)
Lemma text_periods_of_names :
  text_periods Scenario.irradiance = true
  /\ text_label "Jan" = true /\ text_label "Nov" = true
  /\ text_label "1" = false /\ text_label "01" = false
  /\ text_label "" = false /\ text_label "NaN" = false
  /\ text_periods (mkDataFrame ["Month"; "Irradiance"] []) = false
  /\ text_periods (mkDataFrame ["Month"; "Irradiance"] [mkRow "1" [150%float]])
     = false.
Proof. repeat split. Qed.

Lemma merge_no_common_period (left right d : DataFrame) :
  merge left right = Ok d ->
  (forall p, In p (periods left) -> ~ In p (periods right)) ->
  rows d = [].
Proof.
  intros Hm Hno. destruct (merge_Ok_inv _ _ _ Hm) as [_ ->].
  assert (H : forall l, In l (rows left) -> matches l right = []).
  { intros l Hl. unfold matches.
    destruct (filter _ (rows right)) as [|r rs] eqn:E; [reflexivity|].
    exfalso. assert (Hin : In r (filter (fun r => Month r =? Month l)
                                   (rows right))) by (rewrite E; now left).
    apply filter_In in Hin. destruct Hin as [Hr He].
    apply String.eqb_eq in He.
    apply (Hno (Month l)); [now apply in_map|].
    rewrite <- He. now apply in_map. }
  induction (rows left) as [|l ls IH]; simpl; [reflexivity|].
  rewrite (H l) by now left. simpl. apply IH.
  intros l' Hl'. apply H. now right.
Qed.

(** C6, as the code has it.  When the two data sets have rows, their
    periods are text (month names, which [pd.read_csv] keeps as they are
    written and [pd.merge] compares as text) and no period is in both, the
    join is empty and no error is raised: both totals are 0, the overall
    efficiency is 0/0, a [nan], and the report is generated, one page with
    the head and the two images and no row.  Month names in one file and
    month numbers in the other are another case: [pd.merge] refuses to
    compare text with numbers. *)
Theorem empty_join_gives_nan_report (fs : filesystem) (s : Sidebar.inputs)
  (irradiance_df generation_df : DataFrame) (r : Computed) :
  mem "Month" (columns irradiance_df) = true ->
  mem "Month" (columns generation_df) = true ->
  text_periods irradiance_df = true ->
  text_periods generation_df = true ->
  compute s irradiance_df generation_df = Ok r ->
  (forall p, In p (periods irradiance_df) -> ~ In p (periods generation_df)) ->
  rows (df r) = []
  /\ total_expected r = 0%float
  /\ total_actual r = 0%float
  /\ overall_eff r = nan
  /\ exists fig fig_eff pg,
       generate_report fs s irradiance_df generation_df
       = ReportGenerated fig fig_eff [pg]
       /\ texts pg = head_texts s r
       /\ table_periods pg = [].
Proof.
  intros Hi Hg _ _ Hc Hno.
  destruct (compute_Ok_inv _ _ _ _ Hc) as [d0 [Hm [_ [_ Hr]]]].
  pose proof (merge_no_common_period _ _ _ Hm Hno) as H0.
  assert (Hrows : rows (df r) = []).
  { rewrite Hr, rows_computed_from, H0. reflexivity. }
  assert (Ht : total_expected r = 0%float /\ total_actual r = 0%float
               /\ overall_eff r = nan).
  { rewrite Hr in Hrows |- *. unfold computed_from in Hrows |- *.
    cbn [df total_expected total_actual overall_eff] in Hrows |- *.
    rewrite Hrows. repeat split. }
  destruct Ht as [Hte [Hta Ho]].
  split; [exact Hrows|]. split; [exact Hte|]. split; [exact Hta|].
  split; [exact Ho|].
  rewrite (ReportGenerated_intro fs s _ _ r Hi Hg Hc).
  unfold layout, pages_from. rewrite Hrows. cbn [lay_rows app].
  eexists _, _, _. split; [reflexivity|].
  rewrite texts_app, table_periods_app, texts_head_page,
    table_periods_head_page.
  split; reflexivity.
Qed.

(** C6 as stated fails: the two files have month names and no period in
    common, and the report is generated, with no row and with [nan] as
    overall efficiency. *)
Lemma empty_join_counterexample :
  exists r fig fig_eff pdf_data,
    compute Scenario.sidebar Scenario.irradiance Scenario.generation_other = Ok r
    /\ text_periods Scenario.irradiance = true
    /\ text_periods Scenario.generation_other = true
    /\ common_periods Scenario.irradiance Scenario.generation_other = []
    /\ rows (df r) = []
    /\ overall_eff r = nan
    /\ generate_report [] Scenario.sidebar Scenario.irradiance
         Scenario.generation_other
       = ReportGenerated fig fig_eff pdf_data.
Proof.
  eexists _, _, _, _.
  split; [vm_compute; reflexivity|].
  split; [reflexivity|]. split; [reflexivity|]. split; [reflexivity|].
  split; [reflexivity|]. split; [reflexivity|].
  vm_compute. reflexivity.
Qed.

(** The theorem of C6 on two files with no period in common. *)
Lemma empty_join_gives_nan_report_witness :
  exists r,
    compute Scenario.sidebar Scenario.irradiance Scenario.generation_other = Ok r
    /\ rows (df r) = []
    /\ total_expected r = 0%float
    /\ total_actual r = 0%float
    /\ overall_eff r = nan
    /\ exists fig fig_eff pg,
         generate_report [] Scenario.sidebar Scenario.irradiance
           Scenario.generation_other
         = ReportGenerated fig fig_eff [pg]
         /\ texts pg = head_texts Scenario.sidebar r
         /\ table_periods pg = [].
Proof.
  eexists. split; [vm_compute; reflexivity|].
  apply (empty_join_gives_nan_report [] Scenario.sidebar Scenario.irradiance
           Scenario.generation_other).
  - reflexivity.
  - reflexivity.
  - reflexivity.
  - reflexivity.
  - vm_compute. reflexivity.
  - intros p Hi Hg. simpl in Hi, Hg.
    destruct Hi as [<-|[<-|[]]];
      destruct Hg as [Hg|[Hg|[]]]; discriminate Hg.
Defined.

(** Thirty rows: twenty-nine on the first page, the thirtieth and the two
    images on the second. *)
Lemma thirty_rows_two_pages :
  exists fig fig_eff page1 page2,
    generate_report [] Scenario.sidebar Scenario.irradiance_long
      Scenario.generation_long
    = ReportGenerated fig fig_eff [page1; page2]
    /\ List.length (table_periods page1) = 29
    /\ List.length (table_periods page2) = 1.
Proof.
  eexists _, _, _, _. split; [vm_compute; reflexivity|].
  split; reflexivity.
Qed.

(** * More of the script

    What the merged rows hold, how the table spreads over the pages and
    where the images go. *)

(** ** Definitions *)

(** A merged row as the figures and the table show it: period, irradiance,
    expected generation, actual generation, monthly efficiency. *)
Definition shown_row : Type := string * float * float * float * float.

Definition view (d : DataFrame) (row : Row) : shown_row :=
  (Month row, loc d "Irradiance" row, loc d "ExpectedGeneration" row,
   loc d "ActualGeneration" row, loc d "MonthlyEfficiency" row).

(** What lines 46-47 make of a record [l] of the irradiance file and a
    record [g] of the generation file. *)
Definition paired (s : Sidebar.inputs) (irradiance_df generation_df : DataFrame)
  (l g : Row) : shown_row :=
  let irr := loc irradiance_df "Irradiance" l in
  let expd := (expected_factor s * irr)%float in
  let act := loc generation_df "ActualGeneration" g in
  (Month l, irr, expd, act, (act / expd * 100)%float).

(** The fields of the table's lines on a page (line 134). *)
Definition table_fields (p : page) : list shown_row :=
  flat_map (fun op => match op with
                      | drawString _ _
                          [Field (VStr m) _; _; Field (VFloat i) _; _;
                           Field (VFloat e) _; _; Field (VFloat a) _; _;
                           Field (VFloat f) _; _] => [(m, i, e, a, f)]
                      | _ => []
                      end) p.

(** The heights along the y axis of a call that takes whole columns
    (lines 58 and 82). *)
Definition series_heights (fig : Figure) : list float :=
  flat_map (fun a => match a with
                     | ax_bar _ h _ (Some _) _ => h
                     | ax_plot _ h _ _ _ => h
                     | _ => []
                     end) fig.

(** The value labels (lines 71-72): period, height, value printed. *)
Definition value_texts (fig : Figure) : list (string * float * float) :=
  flat_map (fun a => match a with
                     | ax_text m h [Field (VFloat v) _] _ _ => [(m, h, v)]
                     | _ => []
                     end) fig.

(** The number of table lines on a page. *)
Definition row_count (p : page) : nat := List.length (table_periods p).

(** The rows that each page takes when [n] rows are drawn from the cursor
    [y0] on, the page being drawn having [cur] rows already. *)
Fixpoint rows_per_page (n : nat) (y0 : float) (cur : nat) : list nat :=
  match n with
  | O => [cur]
  | S n' =>
      if breaks y0 then S cur :: rows_per_page n' page_top 0
      else rows_per_page n' (y0 - 15)%float (S cur)
  end.

(** A line of the table or an image. *)
Definition row_or_image (op : canvas_op) : bool :=
  match op with
  | drawString _ _ (Field (VStr _) "5" :: _) => true
  | drawImage _ _ _ _ _ => true
  | _ => false
  end.

(** A float that is a zero or a [nan]. *)
Definition null (x : float) : bool :=
  (PrimFloat.is_nan x || (x =? 0))%float.

(** ** The cells of the merged frame (line 45) *)

Lemma is_data_lsuffix (other : list string) (c : string) :
  is_data (lsuffix other c) = is_data c.
Proof.
  unfold lsuffix. destruct (String.eqb_spec c "Month") as [->|Hm];
    [reflexivity|].
  destruct (mem c other); [|reflexivity].
  unfold is_data. destruct (String.eqb_spec c "Month"); [contradiction|].
  destruct (String.eqb_spec (c ++ "_x") "Month") as [E|]; [|reflexivity].
  apply (f_equal last_char) in E. rewrite last_char_append in E.
  discriminate E.
Qed.

Lemma is_data_rsuffix (other : list string) (c : string) :
  is_data (rsuffix other c) = is_data c.
Proof.
  unfold rsuffix. destruct (String.eqb_spec c "Month") as [->|Hm];
    [reflexivity|].
  destruct (mem c other); [|reflexivity].
  unfold is_data. destruct (String.eqb_spec c "Month"); [contradiction|].
  destruct (String.eqb_spec (c ++ "_y") "Month") as [E|]; [|reflexivity].
  apply (f_equal last_char) in E. rewrite last_char_append in E.
  discriminate E.
Qed.

Lemma filter_is_data_map (ren : string -> string) (l : list string) :
  (forall c, is_data (ren c) = is_data c) ->
  filter is_data (map ren l) = map ren (filter is_data l).
Proof.
  intros H. induction l as [|c l IH]; simpl; [reflexivity|].
  rewrite H. destruct (is_data c); simpl; now rewrite IH.
Qed.

Lemma filter_is_data_idem (l : list string) :
  filter is_data (filter is_data l) = filter is_data l.
Proof.
  induction l as [|c l IH]; simpl; [reflexivity|].
  destruct (is_data c) eqn:E; simpl; [now rewrite E, IH | exact IH].
Qed.

(** The columns of the merged frame, [Month] apart. *)
Lemma data_columns_merge (left right d : DataFrame) :
  merge left right = Ok d ->
  data_columns d
  = map (lsuffix (data_columns right)) (data_columns left)
    ++ map (rsuffix (data_columns left)) (data_columns right).
Proof.
  intros Hm. destruct (merge_Ok_inv _ _ _ Hm) as [Hc _].
  unfold data_columns at 1. rewrite Hc, filter_app.
  rewrite (filter_is_data_map (lsuffix (data_columns right)))
    by apply is_data_lsuffix.
  rewrite (filter_is_data_map (rsuffix (data_columns left)))
    by apply is_data_rsuffix.
  fold (data_columns left). f_equal. f_equal.
  unfold data_columns. apply filter_is_data_idem.
Qed.

Lemma index_of_map_lsuffix (name : string) (other l : list string) :
  plain_label name -> mem name other = false ->
  index_of name (map (lsuffix other) l) = index_of name l.
Proof.
  intros [Hd [Hx _]] Ho. induction l as [|c l IH]; simpl; [reflexivity|].
  rewrite IH. unfold lsuffix at 1.
  destruct (String.eqb_spec c "Month") as [->|Hm]; [reflexivity|].
  destruct (mem c other) eqn:Hc; [|reflexivity].
  destruct (String.eqb_spec (c ++ "_x") name) as [E|].
  - exfalso. apply Hx. rewrite <- E. now rewrite last_char_append.
  - destruct (String.eqb_spec c name) as [->|]; [congruence | reflexivity].
Qed.

Lemma index_of_map_rsuffix (name : string) (other l : list string) :
  plain_label name -> mem name other = false ->
  index_of name (map (rsuffix other) l) = index_of name l.
Proof.
  intros [Hd [_ Hy]] Ho. induction l as [|c l IH]; simpl; [reflexivity|].
  rewrite IH. unfold rsuffix at 1.
  destruct (String.eqb_spec c "Month") as [->|Hm]; [reflexivity|].
  destruct (mem c other) eqn:Hc; [|reflexivity].
  destruct (String.eqb_spec (c ++ "_y") name) as [E|].
  - exfalso. apply Hy. rewrite <- E. now rewrite last_char_append.
  - destruct (String.eqb_spec c name) as [->|]; [congruence | reflexivity].
Qed.

Lemma index_of_app_notin (name : string) (l1 l2 : list string) :
  mem name l1 = false ->
  index_of name (l1 ++ l2) = List.length l1 + index_of name l2.
Proof.
  induction l1 as [|c l IH]; simpl; [reflexivity|].
  rewrite (String.eqb_sym name c).
  destruct (String.eqb_spec c name); simpl; [discriminate|].
  intros H. now rewrite IH.
Qed.

(** A column that only the left frame has reads, in a merged record, as in
    the left record it was made of. *)
Lemma loc_join_left (left right d : DataFrame) (name : string) (l r : Row) :
  merge left right = Ok d ->
  plain_label name ->
  mem name (columns left) = true ->
  mem name (columns right) = false ->
  loc d name (join left right l r) = loc left name l.
Proof.
  intros Hm Hp Hl Hr. pose proof Hp as [Hd _].
  rewrite <- (mem_data_columns name left Hd) in Hl.
  rewrite <- (mem_data_columns name right Hd) in Hr.
  unfold loc at 1. rewrite (data_columns_merge _ _ _ Hm).
  assert (Hin : mem name (map (lsuffix (data_columns right))
                            (data_columns left)) = true).
  { rewrite mem_map_lsuffix, Hl, Hr by assumption. reflexivity. }
  rewrite index_of_app_in by assumption.
  rewrite index_of_map_lsuffix by assumption.
  unfold join. cbn [cells].
  rewrite app_nth1 by (rewrite length_map; now apply index_of_lt).
  now rewrite nth_index_of_map.
Qed.

(** And one that only the right frame has, as in the right record. *)
Lemma loc_join_right (left right d : DataFrame) (name : string) (l r : Row) :
  merge left right = Ok d ->
  plain_label name ->
  mem name (columns left) = false ->
  mem name (columns right) = true ->
  loc d name (join left right l r) = loc right name r.
Proof.
  intros Hm Hp Hl Hr. pose proof Hp as [Hd _].
  rewrite <- (mem_data_columns name left Hd) in Hl.
  rewrite <- (mem_data_columns name right Hd) in Hr.
  unfold loc at 1. rewrite (data_columns_merge _ _ _ Hm).
  assert (Hout : mem name (map (lsuffix (data_columns right))
                             (data_columns left)) = false).
  { rewrite mem_map_lsuffix, Hl by assumption. reflexivity. }
  rewrite index_of_app_notin by assumption.
  rewrite index_of_map_rsuffix by assumption.
  unfold join. cbn [cells].
  rewrite app_nth2; rewrite !length_map; [|lia].
  replace (List.length (data_columns left) + index_of name (data_columns right)
           - List.length (data_columns left))
    with (index_of name (data_columns right)) by lia.
  now rewrite nth_index_of_map.
Qed.

Lemma map_flat_map_rows {A B C} (f : B -> C) (g : A -> list B) (l : list A) :
  map f (flat_map g l) = flat_map (fun a => map f (g a)) l.
Proof.
  induction l as [|a l IH]; simpl; [reflexivity|].
  now rewrite map_app, IH.
Qed.

Lemma flat_map_ext_in {A B} (f g : A -> list B) (l : list A) :
  (forall a, In a l -> f a = g a) -> flat_map f l = flat_map g l.
Proof.
  intros H. induction l as [|a l IH]; simpl; [reflexivity|].
  rewrite H by now left. rewrite IH; [reflexivity|].
  intros b Hb. apply H. now right.
Qed.

(** X4.  The merge carries the cells over unchanged: under a label that only
    one file has (other than [Month], and not ending in [_x] or [_y]), the
    merged frame holds, pair of records by pair, in the order of the left
    file, the cell of the record of that file. *)
Theorem merge_keeps_cells (left right d : DataFrame) (name : string) :
  merge left right = Ok d ->
  plain_label name ->
  (mem name (columns left) = true ->
   mem name (columns right) = false ->
   map (fun row => (Month row, loc d name row)) (rows d)
   = flat_map (fun l => map (fun r => (Month l, loc left name l))
                          (matches l right))
       (rows left))
  /\ (mem name (columns left) = false ->
      mem name (columns right) = true ->
      map (fun row => (Month row, loc d name row)) (rows d)
      = flat_map (fun l => map (fun r => (Month l, loc right name r))
                             (matches l right))
          (rows left)).
Proof.
  intros Hm Hp. destruct (merge_Ok_inv _ _ _ Hm) as [_ Hr].
  split; intros Hl Hrr; rewrite Hr, map_flat_map_rows;
    apply flat_map_ext_in; intros l _; rewrite map_map.
  - apply map_ext. intros r.
    now rewrite (loc_join_left _ _ _ _ l r Hm Hp Hl Hrr).
  - apply map_ext. intros r.
    now rewrite (loc_join_right _ _ _ _ l r Hm Hp Hl Hrr).
Qed.

(** The theorem of X4 on the irradiance of the scenario. *)
Lemma merge_keeps_cells_witness :
  map (fun row => (Month row, loc Scenario.merged "Irradiance" row))
    (rows Scenario.merged)
  = [("Jan", 150%float); ("Feb", 160%float)].
Proof.
  assert (Hm : merge Scenario.irradiance Scenario.generation
               = Ok Scenario.merged) by (vm_compute; reflexivity).
  assert (Hp : plain_label "Irradiance")
    by (repeat split; simpl; discriminate).
  rewrite (proj1 (merge_keeps_cells Scenario.irradiance Scenario.generation
                    Scenario.merged "Irradiance" Hm Hp) eq_refl eq_refl).
  reflexivity.
Defined.

(** ** The rows of the report (lines 45-47) *)

(** X5.  With [Irradiance] in the irradiance file only and
    [ActualGeneration] in the generation file only, the rows that the
    figures and the table show are, for every record of the irradiance file
    in order and every record of the generation file with the same period:
    that period, the irradiance of the first record, the actual generation
    of the second, the expected generation derived from that irradiance and
    the monthly efficiency derived from both. *)
Theorem rows_from_the_two_files (s : Sidebar.inputs)
  (irradiance_df generation_df : DataFrame) (r : Computed) :
  mem "Irradiance" (columns irradiance_df) = true ->
  mem "Irradiance" (columns generation_df) = false ->
  mem "ActualGeneration" (columns irradiance_df) = false ->
  mem "ActualGeneration" (columns generation_df) = true ->
  compute s irradiance_df generation_df = Ok r ->
  map (view (df r)) (rows (df r))
  = flat_map (fun l => map (paired s irradiance_df generation_df l)
                         (matches l generation_df))
      (rows irradiance_df).
Proof.
  intros Hii Hig Hai Hag Hc.
  destruct (compute_Ok_inv _ _ _ _ Hc) as [d0 [Hm [Hi [Ha ->]]]].
  rewrite rows_computed_from, map_map.
  destruct (merge_Ok_inv _ _ _ Hm) as [_ Hr]. rewrite Hr.
  rewrite map_flat_map_rows. apply flat_map_ext_in. intros l _.
  rewrite map_map. apply map_ext. intros g.
  unfold view, paired.
  rewrite loc_MonthlyEfficiency, loc_ExpectedGeneration, loc_Irradiance,
    loc_ActualGeneration by assumption.
  rewrite (loc_join_left _ _ _ "Irradiance" l g Hm)
    by (try assumption; repeat split; simpl; discriminate).
  rewrite (loc_join_right _ _ _ "ActualGeneration" l g Hm)
    by (try assumption; repeat split; simpl; discriminate).
  reflexivity.
Qed.

(** The theorem of X5 on the scenario. *)
Lemma rows_from_the_two_files_witness :
  map (view (df Scenario.computed)) (rows (df Scenario.computed))
  = [("Jan", 150%float, 432%float, 500%float, 115.74074074074075%float);
     ("Feb", 160%float, 460.79999999999995%float, 520%float,
      112.84722222222223%float)].
Proof.
  assert (Hc : compute Scenario.sidebar Scenario.irradiance Scenario.generation
               = Ok Scenario.computed) by (vm_compute; reflexivity).
  rewrite (rows_from_the_two_files Scenario.sidebar Scenario.irradiance
             Scenario.generation Scenario.computed
             eq_refl eq_refl eq_refl eq_refl Hc).
  vm_compute. reflexivity.
Defined.

(** X6.  Lines 46-47 touch the two derived columns only: the frame keeps
    its rows, and every other column reads after them as it did in the
    merged frame, or is missing as it was. *)
Theorem derived_columns_only (s : Sidebar.inputs)
  (irradiance_df generation_df d0 : DataFrame) (r : Computed) :
  merge irradiance_df generation_df = Ok d0 ->
  compute s irradiance_df generation_df = Ok r ->
  List.length (rows (df r)) = List.length (rows d0)
  /\ (forall name,
         name <> "ExpectedGeneration" -> name <> "MonthlyEfficiency" ->
         getitem (df r) name = getitem d0 name)
  /\ (exists expd eff,
         getitem (df r) "ExpectedGeneration" = Ok expd
         /\ getitem (df r) "MonthlyEfficiency" = Ok eff
         /\ List.length expd = List.length (rows d0)
         /\ List.length eff = List.length (rows d0)).
Proof.
  intros Hm Hc.
  destruct (compute_Ok_inv _ _ _ _ Hc) as [d [Hm' [Hi [Ha ->]]]].
  rewrite Hm in Hm'. injection Hm' as <-.
  assert (Hmem : forall c,
             mem c (data_columns (df (computed_from s d0)))
             = mem c (data_columns d0) || (c =? "ExpectedGeneration")
               || (c =? "MonthlyEfficiency")).
  { intros c. cbn [df computed_from]. unfold with_efficiency, with_expected.
    now rewrite !mem_data_setitem by reflexivity. }
  split; [|split].
  - rewrite rows_computed_from. now rewrite length_map.
  - intros name He Hf. unfold getitem. rewrite Hmem.
    destruct (String.eqb_spec name "ExpectedGeneration"); [contradiction|].
    destruct (String.eqb_spec name "MonthlyEfficiency"); [contradiction|].
    rewrite !orb_false_r.
    destruct (mem name (data_columns d0)) eqn:Hn; [|reflexivity].
    f_equal. rewrite rows_computed_from, map_map. apply map_ext. intros row.
    cbn [df computed_from]. unfold derived_row, with_efficiency.
    rewrite loc_put_other; [| reflexivity | assumption | ].
    + unfold with_expected. now rewrite loc_put_other.
    + unfold with_expected. rewrite mem_data_setitem by reflexivity.
      now rewrite Hn.
  - unfold getitem. rewrite !Hmem. simpl (_ =? _).
    rewrite !orb_true_r. cbv iota. eexists _, _.
    split; [reflexivity|]. split; [reflexivity|].
    rewrite !length_map, rows_computed_from, length_map. now split.
Qed.

(** The theorem of X6 on the scenario: the irradiance column after lines
    46-47. *)
Lemma derived_columns_only_witness :
  getitem (df Scenario.computed) "Irradiance"
  = Ok [150%float; 160%float]
  /\ getitem (df Scenario.computed) "Month_x" = Raise (KeyError "Month_x").
Proof.
  assert (Hm : merge Scenario.irradiance Scenario.generation
               = Ok Scenario.merged) by (vm_compute; reflexivity).
  assert (Hc : compute Scenario.sidebar Scenario.irradiance Scenario.generation
               = Ok Scenario.computed) by (vm_compute; reflexivity).
  destruct (derived_columns_only _ _ _ _ _ Hm Hc) as [_ [H _]].
  split.
  - rewrite H by discriminate. reflexivity.
  - rewrite H by discriminate. reflexivity.
Defined.

(** ** The table over the pages (lines 133-139) *)

Lemma row_count_app (p q : page) : row_count (p ++ q) = row_count p + row_count q.
Proof. unfold row_count. now rewrite table_periods_app, length_app. Qed.

Lemma row_count_image_ops (fig fig_eff : Figure) (y0 : float) :
  row_count (image_ops fig fig_eff y0) = 0.
Proof. reflexivity. Qed.

(** The rows on each page that the loop makes. *)
Lemma lay_rows_counts (d : DataFrame) (l : list Row) (sh : list page)
  (cd : page) (y0 : float) :
  match lay_rows d l sh cd y0 with
  | (sh', cd', _) =>
      map row_count sh' ++ [row_count cd']
      = map row_count sh ++ rows_per_page (List.length l) y0 (row_count cd)
  end.
Proof.
  revert sh cd y0. induction l as [|row l IH]; intros sh cd y0; simpl.
  - reflexivity.
  - destruct (breaks y0).
    + specialize (IH (sh ++ [cd ++ [drawString 50 y0 (table_line d row)]])
                    [] page_top).
      destruct (lay_rows d l _ [] page_top) as [[sh' cd'] y'].
      rewrite IH, map_app, <- app_assoc. cbn [map app].
      rewrite row_count_app. cbn. now rewrite Nat.add_1_r.
    + specialize (IH sh (cd ++ [drawString 50 y0 (table_line d row)])
                    (y0 - 15)%float).
      destruct (lay_rows d l sh _ (y0 - 15)%float) as [[sh' cd'] y'].
      rewrite IH, row_count_app. cbn. now rewrite Nat.add_1_r.
Qed.

Lemma pages_from_counts (d : DataFrame) (l : list Row) (hd : page)
  (y0 : float) (fig fig_eff : Figure) :
  map row_count (pages_from d l hd y0 fig fig_eff)
  = rows_per_page (List.length l) y0 (row_count hd).
Proof.
  unfold pages_from. pose proof (lay_rows_counts d l [] hd y0) as H.
  destruct (lay_rows d l [] hd y0) as [[sh cd] y'].
  cbn [map app] in H. rewrite <- H, map_app. cbn [map].
  now rewrite row_count_app, row_count_image_ops, Nat.add_0_r.
Qed.

(** As long as the cursor does not break, the rows go to the page being
    drawn. *)
Lemma rows_per_page_run (k m : nat) (y0 : float) (cur : nat) :
  page_breaks k y0 = 0 ->
  rows_per_page (k + m) y0 cur
  = rows_per_page m (cursor_after k y0) (cur + k).
Proof.
  revert y0 cur. induction k as [|k IH]; intros y0 cur H.
  - now rewrite Nat.add_0_r.
  - cbn [page_breaks] in H. cbn [Nat.add rows_per_page cursor_after].
    unfold next_cursor in *. destruct (breaks y0); [discriminate|].
    rewrite IH by exact H. f_equal. lia.
Qed.

Lemma rows_per_page_first (m : nat) :
  rows_per_page (first_page_rows + m) table_top 0
  = first_page_rows :: rows_per_page m page_top 0.
Proof.
  replace (first_page_rows + m) with (28 + S m)
    by (unfold first_page_rows; lia).
  rewrite rows_per_page_run
    by (apply first_page_no_break; unfold first_page_rows; lia).
  cbn [rows_per_page].
  replace (breaks (cursor_after 28 table_top)) with true
    by (vm_compute; reflexivity).
  reflexivity.
Qed.

Lemma rows_per_page_later (m : nat) :
  rows_per_page (later_page_rows + m) page_top 0
  = later_page_rows :: rows_per_page m page_top 0.
Proof.
  replace (later_page_rows + m) with (46 + S m)
    by (unfold later_page_rows; lia).
  rewrite rows_per_page_run
    by (apply later_page_no_break; unfold later_page_rows; lia).
  cbn [rows_per_page].
  replace (breaks (cursor_after 46 page_top)) with true
    by (vm_compute; reflexivity).
  reflexivity.
Qed.

Lemma rows_per_page_last (k : nat) (y0 : float) :
  page_breaks k y0 = 0 -> rows_per_page k y0 0 = [k].
Proof.
  intros H. rewrite <- (Nat.add_0_r k) at 1.
  now rewrite rows_per_page_run.
Qed.

Lemma rows_per_page_later_pages (q k : nat) :
  k < later_page_rows ->
  rows_per_page (later_page_rows * q + k) page_top 0
  = repeat later_page_rows q ++ [k].
Proof.
  intros Hk. induction q as [|q IH].
  - rewrite Nat.mul_0_r. cbn [Nat.add repeat app].
    apply rows_per_page_last. now apply later_page_no_break.
  - replace (later_page_rows * S q + k)
      with (later_page_rows + (later_page_rows * q + k)) by lia.
    rewrite rows_per_page_later, IH. reflexivity.
Qed.

Lemma row_count_layout (s : Sidebar.inputs) (r : Computed)
  (fig fig_eff : Figure) :
  let n := List.length (rows (df r)) in
  map row_count (layout s r fig fig_eff)
  = if (n <? first_page_rows)%nat then [n]
    else first_page_rows
         :: repeat later_page_rows ((n - first_page_rows) / later_page_rows)
         ++ [(n - first_page_rows) mod later_page_rows].
Proof.
  intros n. unfold layout. rewrite pages_from_counts.
  unfold row_count at 1. rewrite table_periods_head_page. cbn [List.length].
  fold n. destruct (Nat.ltb_spec n first_page_rows) as [Hlt|Hge].
  - apply rows_per_page_last. now apply first_page_no_break.
  - replace n with (first_page_rows + (n - first_page_rows)) at 1 by lia.
    rewrite rows_per_page_first. f_equal.
    set (m := n - first_page_rows).
    rewrite (Nat.div_mod_eq m later_page_rows) at 1.
    apply rows_per_page_later_pages.
    apply Nat.mod_upper_bound. discriminate.
Qed.

(** X7.  The rows of the table on each page of the report: all of them on
    one page when they are fewer than 29; else 29 on the first page, 47 on
    every page that the loop fills after it, and the rest, which may be
    none, on the last page, above the images. *)
Theorem rows_on_each_page (s : Sidebar.inputs) (r : Computed)
  (fig fig_eff : Figure) (fs : filesystem) :
  let n := List.length (rows (df r)) in
  exists pdf_data w,
    build_pdf s r fig fig_eff (fresh_canvas fs) = Ok (pdf_data, w)
    /\ map row_count pdf_data
       = if (n <? first_page_rows)%nat then [n]
         else first_page_rows
              :: repeat later_page_rows
                   ((n - first_page_rows) / later_page_rows)
              ++ [(n - first_page_rows) mod later_page_rows].
Proof.
  intros n. destruct (build_pdf_run s r fig fig_eff fs) as [w Hw].
  exists (layout s r fig fig_eff), w. split; [exact Hw|].
  apply row_count_layout.
Qed.

(** The pages that the loop makes: the page being drawn goes on with lines
    of the table, and every page begun after it holds nothing else, up to
    what [c.save()] finds at the end, [tl]. *)
Lemma lay_rows_pages (d : DataFrame) (l : list Row) (sh : list page)
  (cd : page) (y0 : float) (tl : page) :
  forallb row_or_image tl = true ->
  match lay_rows d l sh cd y0 with
  | (sh', cd', _) =>
      exists ops rest,
        sh' ++ [cd' ++ tl] = sh ++ (cd ++ ops) :: rest
        /\ forallb row_or_image ops = true
        /\ forallb (forallb row_or_image) rest = true
  end.
Proof.
  intros Htl. revert sh cd y0.
  induction l as [|row l IH]; intros sh cd y0; simpl.
  - exists tl, []. now repeat split.
  - destruct (breaks y0).
    + specialize (IH (sh ++ [cd ++ [drawString 50 y0 (table_line d row)]])
                    [] page_top).
      destruct (lay_rows d l _ [] page_top) as [[sh' cd'] y'].
      destruct IH as [ops [rest [He [Ho Hr]]]].
      exists [drawString 50 y0 (table_line d row)], (ops :: rest).
      split; [|split].
      * rewrite He, <- app_assoc. reflexivity.
      * reflexivity.
      * cbn [forallb]. now rewrite Ho, Hr.
    + specialize (IH sh (cd ++ [drawString 50 y0 (table_line d row)])
                    (y0 - 15)%float).
      destruct (lay_rows d l sh _ (y0 - 15)%float) as [[sh' cd'] y'].
      destruct IH as [ops [rest [He [Ho Hr]]]].
      exists (drawString 50 y0 (table_line d row) :: ops), rest.
      split; [|split].
      * rewrite He, <- app_assoc. reflexivity.
      * cbn [forallb]. now rewrite Ho.
      * exact Hr.
Qed.

(** X8.  The head of the report is on the first page only: the first page
    is the head followed by lines of the table (and the images, when it is
    the last), and every other page holds lines of the table and images and
    nothing else: no title, no column heading, no rule, no font. *)
Theorem head_on_first_page_only (s : Sidebar.inputs) (r : Computed)
  (fig fig_eff : Figure) (fs : filesystem) :
  exists pdf_data w ops rest,
    build_pdf s r fig fig_eff (fresh_canvas fs) = Ok (pdf_data, w)
    /\ pdf_data = (head_page s r ++ ops) :: rest
    /\ texts (head_page s r) = head_texts s r
    /\ forallb row_or_image (head_page s r) = false
    /\ forallb row_or_image ops = true
    /\ forallb (forallb row_or_image) rest = true.
Proof.
  destruct (build_pdf_run s r fig fig_eff fs) as [w Hw].
  revert Hw. unfold layout, pages_from.
  pose proof (lay_rows_pages (df r) (rows (df r)) [] (head_page s r)
                table_top) as H.
  destruct (lay_rows (df r) (rows (df r)) [] (head_page s r) table_top)
    as [[sh cd] y'].
  destruct (H (image_ops fig fig_eff y') eq_refl) as [ops [rest [He [Ho Hr]]]].
  intros Hw. eexists _, w, ops, rest. split; [exact Hw|].
  split; [exact He|]. split; [apply texts_head_page|].
  split; [reflexivity|]. split; [exact Ho | exact Hr].
Qed.

(** ** The images (lines 141-150) *)

(** What holds of the cursor after 0 to 28 rows of the first page and after
    0 to 46 rows of a later page holds of it after any number of rows. *)
Lemma cursor_always (P : float -> bool) :
  forallb (fun k => P (cursor_after k table_top)) (List.seq 0 first_page_rows)
  = true ->
  forallb (fun k => P (cursor_after k page_top)) (List.seq 0 later_page_rows)
  = true ->
  forall i, P (cursor_after i table_top) = true.
Proof.
  intros H1 H2 i.
  destruct (Nat.lt_ge_cases i first_page_rows) as [Hlt|Hge].
  - exact (below _ (fun k => P (cursor_after k table_top)) H1 i Hlt).
  - replace i with (first_page_rows + (i - first_page_rows)) by lia.
    rewrite cursor_after_add. destruct first_page_break as [_ ->].
    set (m := i - first_page_rows).
    rewrite (Nat.div_mod_eq m later_page_rows).
    assert (Hk : m mod later_page_rows < later_page_rows)
      by (apply Nat.mod_upper_bound; discriminate).
    destruct (later_pages (m / later_page_rows) _ Hk) as [_ ->].
    exact (below _ (fun k => P (cursor_after k page_top)) H2 _ Hk).
Qed.

Lemma layout_last_page (s : Sidebar.inputs) (r : Computed)
  (fig fig_eff : Figure) :
  exists front body,
    layout s r fig fig_eff
    = front ++ [body ++ image_ops fig fig_eff
                          (cursor_after (List.length (rows (df r))) table_top)].
Proof.
  unfold layout, pages_from.
  pose proof (lay_rows_spec (df r) (rows (df r)) [] (head_page s r) table_top)
    as H.
  destruct (lay_rows (df r) (rows (df r)) [] (head_page s r) table_top)
    as [[sh cd] y'].
  destruct H as [_ [_ ->]]. now exists sh, cd.
Qed.

(** X9.  The two images end the last page: the generation figure with its
    lower edge 400 points below the cursor that the table left, the
    efficiency figure 800 points below it.  The cursor is between 100 and
    the top of a page, so the lower edge of the first image is never more
    than 300 points below the bottom of the page, and that of the second
    image is always below the bottom of the page: the efficiency figure is
    never whole on the page. *)
Theorem images_after_the_table (s : Sidebar.inputs) (r : Computed)
  (fig fig_eff : Figure) (fs : filesystem) :
  exists pdf_data w front body y_end,
    build_pdf s r fig fig_eff (fresh_canvas fs) = Ok (pdf_data, w)
    /\ pdf_data
       = front ++ [body ++ [drawImage fig 50 (y_end - 400)%float 500 300;
                             drawImage fig_eff 50 (y_end - 400 - 400)%float
                               500 300]]
    /\ y_end = cursor_after (List.length (rows (df r))) table_top
    /\ on_page y_end = true
    /\ (-300 <=? y_end - 400)%float = true
    /\ (y_end - 400 - 400 <? 0)%float = true.
Proof.
  destruct (build_pdf_run s r fig fig_eff fs) as [w Hw].
  destruct (layout_last_page s r fig fig_eff) as [front [body H]].
  exists (layout s r fig fig_eff), w, front, body,
    (cursor_after (List.length (rows (df r))) table_top).
  split; [exact Hw|]. split; [exact H|]. split; [reflexivity|].
  split; [apply cursor_on_page|]. split.
  - apply (cursor_always (fun y0 => (-300 <=? y0 - 400)%float));
      vm_compute; reflexivity.
  - apply (cursor_always (fun y0 => (y0 - 400 - 400 <? 0)%float));
      vm_compute; reflexivity.
Qed.

(** ** The figures and the table side by side (lines 58-82 and 134) *)

Lemma table_fields_app (p q : page) :
  table_fields (p ++ q) = table_fields p ++ table_fields q.
Proof. apply flat_map_app. Qed.

Lemma table_fields_row_ops (d : DataFrame) (l : list Row) (y0 : float) :
  table_fields (row_ops d l y0) = map (view d) l.
Proof.
  revert y0. induction l as [|row l IH]; intros y0; [reflexivity|].
  cbn [row_ops map]. change (table_fields (?op :: ?p))
    with (table_fields [op] ++ table_fields p).
  rewrite IH. reflexivity.
Qed.

Lemma table_fields_head_page (s : Sidebar.inputs) (r : Computed) :
  table_fields (head_page s r) = [].
Proof. reflexivity. Qed.

Lemma table_fields_layout (s : Sidebar.inputs) (r : Computed)
  (fig fig_eff : Figure) :
  table_fields (List.concat (layout s r fig fig_eff))
  = map (view (df r)) (rows (df r)).
Proof.
  rewrite (proj1 (layout_spec s r fig fig_eff)).
  rewrite !table_fields_app, table_fields_head_page, table_fields_row_ops.
  unfold image_ops. cbn [table_fields flat_map app]. now rewrite app_nil_r.
Qed.

Lemma series_heights_generation_figure (d : DataFrame) :
  series_heights (generation_figure d)
  = map (loc d "ExpectedGeneration") (rows d).
Proof.
  unfold generation_figure, series_heights.
  rewrite !flat_map_app. cbn [flat_map app].
  assert (H1 : forall l,
             flat_map (fun a => match a with
                                | ax_bar _ h _ (Some _) _ => h
                                | ax_plot _ h _ _ _ => h
                                | _ => []
                                end) (map (actual_bar d) l) = []).
  { induction l as [|row l IH]; simpl; [reflexivity | exact IH]. }
  assert (H2 : forall l,
             flat_map (fun a => match a with
                                | ax_bar _ h _ (Some _) _ => h
                                | ax_plot _ h _ _ _ => h
                                | _ => []
                                end) (flat_map (value_labels d) l) = []).
  { induction l as [|row l IH]; simpl; [reflexivity | exact IH]. }
  rewrite H1, H2, !app_nil_r. reflexivity.
Qed.

Lemma series_heights_efficiency_figure (d : DataFrame) :
  series_heights (efficiency_figure d)
  = map (loc d "MonthlyEfficiency") (rows d).
Proof.
  unfold efficiency_figure, series_heights. cbn [flat_map app].
  now rewrite app_nil_r.
Qed.

Lemma value_texts_generation_figure (d : DataFrame) :
  value_texts (generation_figure d)
  = flat_map (fun row =>
                [(Month row, (loc d "ExpectedGeneration" row + 2)%float,
                  loc d "ExpectedGeneration" row);
                 (Month row, (loc d "ActualGeneration" row + 2)%float,
                  loc d "ActualGeneration" row)]) (rows d).
Proof.
  unfold generation_figure, value_texts.
  rewrite !flat_map_app. cbn [flat_map app].
  assert (H1 : forall l,
             flat_map (fun a => match a with
                                | ax_text m h [Field (VFloat v) _] _ _ =>
                                    [(m, h, v)]
                                | _ => []
                                end) (map (actual_bar d) l) = []).
  { induction l as [|row l IH]; simpl; [reflexivity | exact IH]. }
  assert (H2 : forall l,
             flat_map (fun a => match a with
                                | ax_text m h [Field (VFloat v) _] _ _ =>
                                    [(m, h, v)]
                                | _ => []
                                end) (flat_map (value_labels d) l)
             = flat_map (fun row =>
                           [(Month row,
                             (loc d "ExpectedGeneration" row + 2)%float,
                             loc d "ExpectedGeneration" row);
                            (Month row,
                             (loc d "ActualGeneration" row + 2)%float,
                             loc d "ActualGeneration" row)]) l).
  { induction l as [|row l IH]; simpl; [reflexivity | now rewrite IH]. }
  rewrite H1, H2, !app_nil_r. reflexivity.
Qed.

(** X10.  The figures and the table of a report show the same rows, in the
    same order: the table's lines hold the merged rows, the bars of expected
    generation their expected values, the bars drawn one by one their actual
    values in the colour of their monthly efficiency, the value labels the
    expected and the actual value 2 above each, and the efficiency line
    their monthly efficiencies. *)
Theorem figures_and_table_agree (fs : filesystem) (s : Sidebar.inputs)
  (irradiance_df generation_df : DataFrame) (fig fig_eff : Figure)
  (pdf_data : list page) :
  generate_report fs s irradiance_df generation_df
  = ReportGenerated fig fig_eff pdf_data ->
  exists r,
    compute s irradiance_df generation_df = Ok r
    /\ let shown := table_fields (List.concat pdf_data) in
       shown = map (view (df r)) (rows (df r))
       /\ series_labels fig = map (fun '(m, _, _, _, _) => m) shown
       /\ series_heights fig = map (fun '(_, _, e, _, _) => e) shown
       /\ actual_bars fig
          = map (fun '(m, _, _, a, f) => (m, a, bar_color f)) shown
       /\ value_texts fig
          = flat_map (fun '(m, _, e, a, _) =>
                        [(m, (e + 2)%float, e); (m, (a + 2)%float, a)]) shown
       /\ series_labels fig_eff = map (fun '(m, _, _, _, _) => m) shown
       /\ series_heights fig_eff = map (fun '(_, _, _, _, f) => f) shown.
Proof.
  intros Hr.
  destruct (ReportGenerated_inv _ _ _ _ _ _ _ Hr) as [r [Hc [-> [-> ->]]]].
  exists r. split; [exact Hc|]. cbv zeta.
  rewrite table_fields_layout, series_labels_generation_figure,
    series_heights_generation_figure, actual_bars_generation_figure,
    value_texts_generation_figure, series_labels_efficiency_figure,
    series_heights_efficiency_figure.
  rewrite !map_map. unfold periods, view, bar_of.
  split; [reflexivity|]. split; [reflexivity|]. split; [reflexivity|].
  split; [reflexivity|]. split; [|split; reflexivity].
  induction (rows (df r)) as [|row l IH]; simpl; [reflexivity|].
  now rewrite IH.
Qed.

(** The theorem of X10 on the scenario. *)
Lemma figures_and_table_agree_witness :
  exists fig fig_eff pdf_data,
    generate_report [] Scenario.sidebar Scenario.irradiance Scenario.generation
    = ReportGenerated fig fig_eff pdf_data
    /\ series_heights fig
       = map (fun '(_, _, e, _, _) => e) (table_fields (List.concat pdf_data)).
Proof.
  assert (E : exists fig fig_eff pdf_data,
             generate_report [] Scenario.sidebar Scenario.irradiance
               Scenario.generation
             = ReportGenerated fig fig_eff pdf_data)
    by (eexists _, _, _; vm_compute; reflexivity).
  destruct E as [fig [fig_eff [pdf_data E]]].
  exists fig, fig_eff, pdf_data. split; [exact E|].
  destruct (figures_and_table_agree _ _ _ _ _ _ _ E)
    as [r [_ [_ [_ [H _]]]]].
  exact H.
Defined.

(** ** No expected generation (lines 46-51) *)

Lemma null_spec (x : float) :
  null x = match Prim2SF x with
           | S754_zero _ | S754_nan => true
           | _ => false
           end.
Proof.
  unfold null, PrimFloat.is_nan. rewrite !FloatAxioms.eqb_spec.
  change (Prim2SF 0) with (S754_zero false).
  destruct (Prim2SF x) as [sg| sg | | sg m ex]; simpl; try reflexivity.
  - now destruct sg.
  - unfold SFeqb, SFcompare. destruct sg;
      rewrite Z.compare_refl, Pos.compare_cont_refl; reflexivity.
Qed.

Lemma mul_null_l (a b : float) : null a = true -> null (a * b)%float = true.
Proof.
  rewrite !null_spec, mul_spec.
  destruct (Prim2SF a) as [sa| sa | | sa ma ea]; try discriminate;
    destruct (Prim2SF b) as [sb| sb | | sb mb eb]; reflexivity.
Qed.

Lemma mul_null_r (a b : float) : null b = true -> null (a * b)%float = true.
Proof.
  rewrite !null_spec, mul_spec.
  destruct (Prim2SF b) as [sb| sb | | sb mb eb]; try discriminate;
    destruct (Prim2SF a) as [sa| sa | | sa ma ea]; reflexivity.
Qed.

Lemma div_100_null (a : float) : (a =? 0)%float = true -> null (a / 100)%float = true.
Proof.
  intros H. destruct (eqb_zero_inv a H) as [sg Hsg].
  rewrite null_spec, div_spec, Hsg.
  change (Prim2SF 100) with (S754_finite false 7036874417766400 (-46)).
  reflexivity.
Qed.

(** Whatever is divided by a zero or by a [nan], the quotient times 100 is
    an infinity or a [nan]. *)
Lemma div_null_times_100 (a e : float) :
  null e = true -> PrimFloat.is_finite (a / e * 100)%float = false.
Proof.
  rewrite null_spec, is_finite_spec, mul_spec, div_spec.
  change (Prim2SF 100) with (S754_finite false 7036874417766400 (-46)).
  destruct (Prim2SF e) as [se| se | | se me ee]; try discriminate; intros _;
    destruct (Prim2SF a) as [sa| sa | | sa ma ea]; reflexivity.
Qed.

Lemma fillna0_null (x : float) :
  null x = true -> exists sg, Prim2SF (fillna0 x) = S754_zero sg.
Proof.
  unfold fillna0. intros H. destruct (PrimFloat.is_nan x) eqn:Hn.
  - now exists false.
  - revert H Hn. rewrite null_spec. unfold PrimFloat.is_nan.
    rewrite FloatAxioms.eqb_spec.
    destruct (Prim2SF x) as [sg| sg | | sg m ex]; try discriminate.
    now exists sg.
Qed.

Lemma is_zero_add (x y : float) :
  is_zero x -> is_zero y -> is_zero (x + y)%float.
Proof.
  intros [sx Hx] [sy Hy]. unfold is_zero. rewrite add_spec, Hx, Hy.
  destruct sx, sy; eexists; reflexivity.
Qed.

Lemma is_zero_fold (l : list float) (acc : float) :
  Forall is_zero l -> is_zero acc -> is_zero (fold_left PrimFloat.add l acc).
Proof.
  intros H. revert acc. induction H as [|x l Hx _ IH]; intros acc Hacc;
    [exact Hacc|].
  cbn [fold_left]. apply IH. now apply is_zero_add.
Qed.

Lemma Forall_firstn_skipn {A} (P : A -> Prop) (n : nat) (l : list A) :
  Forall P l -> Forall P (firstn n l) /\ Forall P (skipn n l).
Proof.
  intros H. rewrite <- (firstn_skipn n l) in H. now apply Forall_app in H.
Qed.

Lemma is_zero_zip_with (r l : list float) :
  Forall is_zero r -> Forall is_zero l ->
  Forall is_zero (zip_with PrimFloat.add r l).
Proof.
  intros Hr. revert l. unfold zip_with.
  induction Hr as [|x r Hx _ IH]; intros l Hl; [constructor|].
  destruct Hl as [|y l Hy Hl]; [constructor|].
  cbn [combine map fst snd]. constructor; [now apply is_zero_add|].
  now apply IH.
Qed.

Lemma is_zero_unrolled (k : nat) (r l : list float) :
  Forall is_zero r -> Forall is_zero l ->
  Forall is_zero (fst (unrolled k r l))
  /\ Forall is_zero (snd (unrolled k r l)).
Proof.
  revert r l. induction k as [|k IH]; intros r l Hr Hl; [now split|].
  cbn [unrolled]. destruct (Forall_firstn_skipn is_zero 8 l Hl) as [Hf Hs].
  apply IH; [now apply is_zero_zip_with | exact Hs].
Qed.

Lemma is_zero_block_sum (l : list float) :
  Forall is_zero l -> is_zero (block_sum l).
Proof.
  intros H. unfold block_sum.
  destruct (Forall_firstn_skipn is_zero 8 l H) as [Hf Hs].
  destruct (is_zero_unrolled (Nat.div (List.length l) 8 - 1) _ _ Hf Hs)
    as [Hr Hrest].
  assert (Hm : is_zero (-0)%float) by (now exists true).
  destruct (unrolled _ _ _) as [r rest]. cbn [fst snd] in Hr, Hrest.
  do 8 (destruct r as [|? r]; [now apply is_zero_fold|]).
  destruct r; [|now apply is_zero_fold].
  repeat match goal with
         | H : Forall is_zero (_ :: _) |- _ => inversion_clear H
         end.
  apply is_zero_fold; [exact Hrest|]. repeat apply is_zero_add; assumption.
Qed.

Lemma is_zero_pairwise_sum (fuel : nat) (l : list float) :
  Forall is_zero l -> is_zero (pairwise_sum fuel l).
Proof.
  revert l. induction fuel as [|fuel IH]; intros l H;
    rewrite pairwise_sum_eq;
    (destruct (List.length l <? 8)%nat;
     [apply is_zero_fold; [exact H | now exists true]|]);
    (destruct (List.length l <=? 128)%nat; [now apply is_zero_block_sum|]).
  - now apply is_zero_block_sum.
  - cbv zeta.
    destruct (Forall_firstn_skipn is_zero
                (Nat.div (List.length l) 2
                 - Nat.modulo (Nat.div (List.length l) 2) 8) l H) as [Hf Hs].
    apply is_zero_add; now apply IH.
Qed.

(** A column of zeros and missing values sums to zero. *)
Lemma Series_sum_null (l : list float) :
  forallb null l = true -> (Series_sum l =? 0)%float = true.
Proof.
  intros H. rewrite FloatAxioms.eqb_spec.
  change (Prim2SF 0) with (S754_zero false).
  assert (Hz : Forall is_zero (map fillna0 l)).
  { apply Forall_forall. intros y Hy. apply in_map_iff in Hy.
    destruct Hy as [x [<- Hx]]. apply fillna0_null.
    now apply (proj1 (forallb_forall null l) H). }
  destruct (is_zero_pairwise_sum (List.length (map fillna0 l)) _ Hz)
    as [sg Hsg].
  unfold Series_sum, np_sum. rewrite add_spec, Hsg.
  change (Prim2SF 0) with (S754_zero false). now destruct sg.
Qed.

(** X11.  When the panel efficiency is 0, or when the irradiance of every
    merged row is zero or missing, the total expected generation is zero and
    neither the overall efficiency nor any monthly efficiency is a finite
    number: the report shows infinities and [nan]s in their place. *)
Theorem no_expected_generation (s : Sidebar.inputs)
  (irradiance_df generation_df : DataFrame) (r : Computed) :
  compute s irradiance_df generation_df = Ok r ->
  (Sidebar.efficiency s =? 0)%float = true
  \/ (forall row, In row (rows (df r)) ->
                  null (loc (df r) "Irradiance" row) = true) ->
  (total_expected r =? 0)%float = true
  /\ PrimFloat.is_finite (overall_eff r) = false
  /\ (forall row, In row (rows (df r)) ->
                  PrimFloat.is_finite (loc (df r) "MonthlyEfficiency" row)
                  = false).
Proof.
  intros Hc Hz.
  assert (Hnull : forall row, In row (rows (df r)) ->
                    null (loc (df r) "ExpectedGeneration" row) = true).
  { intros row Hin.
    destruct (compute_Ok_inv _ _ _ _ Hc) as [d0 [_ [Hi [Ha Hr]]]].
    subst r. pose proof Hin as Hin'.
    rewrite rows_computed_from in Hin'. apply in_map_iff in Hin'.
    destruct Hin' as [r0 [<- _]].
    rewrite loc_ExpectedGeneration by assumption.
    destruct Hz as [Hz|Hz].
    - apply mul_null_l. unfold expected_factor.
      apply mul_null_l, mul_null_l. now apply div_100_null.
    - apply mul_null_r. rewrite <- (loc_Irradiance s d0 Hi r0).
      now apply Hz. }
  assert (Ht : (total_expected r =? 0)%float = true).
  { destruct (compute_Ok_inv _ _ _ _ Hc) as [d0 [_ [_ [_ Hr]]]].
    rewrite Hr in Hnull |- *. unfold computed_from in Hnull |- *.
    cbn [df total_expected] in Hnull |- *.
    apply Series_sum_null. apply forallb_forall. intros x Hx.
    apply in_map_iff in Hx. destruct Hx as [row [<- Hin]].
    now apply Hnull. }
  split; [exact Ht|]. split.
  - destruct (compute_Ok_inv _ _ _ _ Hc) as [d0 [_ [_ [_ Hr]]]].
    rewrite Hr in Ht |- *. unfold computed_from in Ht |- *.
    cbn [total_expected overall_eff] in Ht |- *.
    now apply div_zero_times_100.
  - intros row Hin.
    rewrite (monthly_efficiency_derivation _ _ _ _ _ Hc Hin).
    apply div_null_times_100. now apply Hnull.
Qed.

(** The theorem of X11 on the scenario with the panel efficiency at 0. *)
Lemma no_expected_generation_witness :
  (total_expected Scenario.computed_zero =? 0)%float = true
  /\ PrimFloat.is_finite (overall_eff Scenario.computed_zero) = false
  /\ (forall row, In row (rows (df Scenario.computed_zero)) ->
                  PrimFloat.is_finite
                    (loc (df Scenario.computed_zero) "MonthlyEfficiency" row)
                  = false).
Proof.
  apply (no_expected_generation Scenario.sidebar_zero Scenario.irradiance
           Scenario.generation).
  - vm_compute. reflexivity.
  - left. vm_compute. reflexivity.
Defined.

(** ** The files under [/tmp] (lines 142-149) *)

(** The report block with the world it leaves. *)
Lemma build_pdf_world (s : Sidebar.inputs) (r : Computed) (fig fig_eff : Figure)
  (fs : filesystem) :
  exists w,
    build_pdf s r fig fig_eff (fresh_canvas fs)
    = Ok (layout s r fig fig_eff, w)
    /\ tmp w = (img_path_eff, fig_eff) :: (img_path, fig) :: fs
    /\ shown w = layout s r fig fig_eff
    /\ code w = [].
Proof.
  unfold build_pdf, and_then, layout, pages_from.
  rewrite report_head_run, for_each_table_row.
  unfold fresh_canvas. cbn [tmp shown code y app].
  destruct (lay_rows (df r) (rows (df r)) [] (head_page s r) table_top)
    as [[sh cd] y0].
  rewrite report_images_run. cbn [tmp shown code y].
  unfold c_save, image_ops. cbn [tmp shown code y].
  destruct cd; cbn [app]; eexists; (split; [reflexivity|]);
    cbn [tmp shown code]; repeat split.
Qed.

(** X12.  A run leaves its two figures under the two fixed paths, whatever
    was there before, and leaves every other file as it was; the canvas is
    left with the pages of the report shown and no page being drawn. *)
Theorem files_left_by_a_run (s : Sidebar.inputs) (r : Computed)
  (fig fig_eff : Figure) (fs : filesystem) :
  exists pdf_data w,
    build_pdf s r fig fig_eff (fresh_canvas fs) = Ok (pdf_data, w)
    /\ read_file (tmp w) "/tmp/solar_generation_chart.png" = Some fig
    /\ read_file (tmp w) "/tmp/efficiency_chart.png" = Some fig_eff
    /\ (forall path,
           path <> "/tmp/solar_generation_chart.png" ->
           path <> "/tmp/efficiency_chart.png" ->
           read_file (tmp w) path = read_file fs path)
    /\ shown w = pdf_data
    /\ code w = [].
Proof.
  destruct (build_pdf_world s r fig fig_eff fs) as [w [Hw [Ht [Hs Hc]]]].
  exists (layout s r fig fig_eff), w. split; [exact Hw|]. rewrite Ht.
  split; [reflexivity|]. split; [reflexivity|]. split; [|now split].
  intros path H1 H2. cbn [read_file]. unfold img_path, img_path_eff.
  destruct (String.eqb_spec "/tmp/efficiency_chart.png" path) as [E|_];
    [now symmetry in E|].
  destruct (String.eqb_spec "/tmp/solar_generation_chart.png" path) as [E|_];
    [now symmetry in E|].
  reflexivity.
Qed.

(** ** What the sidebar's text fields and panel power are for *)

Lemma compute_factor (s1 s2 : Sidebar.inputs)
  (irradiance_df generation_df : DataFrame) :
  expected_factor s1 = expected_factor s2 ->
  compute s1 irradiance_df generation_df
  = compute s2 irradiance_df generation_df.
Proof. intros H. unfold compute. now rewrite H. Qed.

(** X13.  The plant name, the project code, the address and the panel
    power only go to the head of the report: two runs whose sidebars agree
    on the panel efficiency, the number of panels and the panel's length and
    width compute the same rows and totals, draw the same figures and,
    when a report is generated, lay the same table lines on pages of as
    many rows. *)
Theorem head_fields_only_in_head (fs : filesystem) (s1 s2 : Sidebar.inputs)
  (irradiance_df generation_df : DataFrame) :
  Sidebar.efficiency s1 = Sidebar.efficiency s2 ->
  Sidebar.num_panels s1 = Sidebar.num_panels s2 ->
  Sidebar.length s1 = Sidebar.length s2 ->
  Sidebar.width s1 = Sidebar.width s2 ->
  compute s1 irradiance_df generation_df
  = compute s2 irradiance_df generation_df
  /\ match generate_report fs s1 irradiance_df generation_df,
           generate_report fs s2 irradiance_df generation_df with
     | ReportGenerated fig1 fig_eff1 pdf1, ReportGenerated fig2 fig_eff2 pdf2 =>
         fig1 = fig2 /\ fig_eff1 = fig_eff2
         /\ table_fields (List.concat pdf1) = table_fields (List.concat pdf2)
         /\ map row_count pdf1 = map row_count pdf2
     | o1, o2 => o1 = o2
     end.
Proof.
  intros He Hn Hl Hw.
  assert (Hf : expected_factor s1 = expected_factor s2).
  { unfold expected_factor, panel_area. now rewrite He, Hn, Hl, Hw. }
  pose proof (compute_factor s1 s2 irradiance_df generation_df Hf) as Hc.
  split; [exact Hc|].
  rewrite !generate_report_eq, Hc.
  destruct (negb _ || negb _); [reflexivity|].
  destruct (compute s2 irradiance_df generation_df) as [r|e]; [|reflexivity].
  split; [reflexivity|]. split; [reflexivity|].
  rewrite !table_fields_layout.
  split; [reflexivity|].
  pose proof (row_count_layout s1 r (generation_figure (df r))
                (efficiency_figure (df r))) as H1.
  pose proof (row_count_layout s2 r (generation_figure (df r))
                (efficiency_figure (df r))) as H2.
  cbv zeta in H1, H2. now rewrite H1, H2.
Qed.

(** The theorem of X13 on the scenario and the same panels at another
    plant, with another panel power. *)
Lemma head_fields_only_in_head_witness :
  compute Scenario.sidebar Scenario.irradiance Scenario.generation
  = compute Scenario.sidebar_other Scenario.irradiance Scenario.generation.
Proof.
  pose proof (head_fields_only_in_head [] Scenario.sidebar
                Scenario.sidebar_other Scenario.irradiance Scenario.generation
                eq_refl eq_refl eq_refl eq_refl) as H.
  destruct H as [H _]. exact H.
Defined.
